(** * talkops-home-assistant: the Home Assistant bridge, embedded and verified

    The repository holds two variants of one program: [index.mjs] and
    [src/main.mjs].  Both keep a mirror of a Home Assistant server's
    floors, rooms, lights, shutters, sensors and scenes over one web
    socket, and offer three actions that send [call_service] frames.

    The embedding is shallow.  The module level variables of the scripts
    are the fields of one record [State]; every function and every socket
    handler is a function on [State].  What the two files share word for
    word ([call], the three actions, the reconciliation of a result and
    the regeneration of the instructions) is defined once; what differs
    ([connect], [refresh] and the handlers) lives in [Module Index] and
    [Module Main].

    Reading of the data.  Inbound frames are read at the types the Home
    Assistant web socket API gives them: entity identifiers are strings,
    listings are arrays of objects, [id] is an integer and [success] a
    boolean.  A field the code only copies or tests for truthiness keeps
    a JavaScript value, [js_value].  Numbers are kept by their integer
    value, and so is the request counter (a JavaScript number counts
    exactly up to 2^53).

    Reading of the events.  The handlers [onopen], [onerror], [onmessage]
    and [onclose] are those of the socket the variable [socket] holds,
    and the [ws] library has set the state of the socket when it calls
    them: [OPEN] for [onopen], [CLOSING] for [onerror], [CLOSED] for
    [onclose].  A connection is what happens on one socket, from the
    [connect] that makes it until its close or until [connect] runs
    again.  A timer is a pending entry of [timers] until it is cleared
    or, for a timeout, until it has run. *)

From stdpp Require Import gmap strings list fin_maps.
From Stdlib Require Import ZArith Lia.

Local Open Scope Z_scope.
Local Open Scope string_scope.
Local Open Scope list_scope.

(** ** JavaScript values *)

Inductive js_value :=
  | VUndefined
  | VNull
  | VBool (b : bool)
  | VNum (n : Z)
  | VStr (s : string).

#[global] Instance js_value_eq_dec : EqDecision js_value.
Proof. solve_decision. Defined.

(** Truthiness, as [if (v)], [v && w], [v || w] and [Array.filter] test it. *)
Definition truthy (v : js_value) : bool :=
  match v with
  | VUndefined | VNull => false
  | VBool b => b
  | VNum n => negb (Z.eqb n 0)
  | VStr s => negb (String.eqb s "")
  end.

(** [a || b] *)
Definition js_or (a b : js_value) : js_value := if truthy a then a else b.

(** [Map.prototype.get]: [undefined] for a key that was never set. *)
Definition map_get (m : gmap string js_value) (k : string) : js_value :=
  default VUndefined (m !! k).

(** [s.startsWith(p)] *)
Definition startsWith (s p : string) : bool := String.prefix p s.

(** ** Payloads of the Home Assistant replies *)

Module Attributes.
Record t := { unit_of_measurement : js_value }.
End Attributes.

(** An element of the [get_states] reply. *)
Module HaState.
Record t := { entity_id : string; state : js_value; attributes : Attributes.t }.
End HaState.

(** An element of the [config/floor_registry/list] reply. *)
Module HaFloor.
Record t := { floor_id : js_value; name : js_value; level : js_value }.
End HaFloor.

(** An element of the [config/area_registry/list] reply. *)
Module HaArea.
Record t := { area_id : js_value; name : js_value; floor_id : js_value }.
End HaArea.

(** An element of the [config/entity_registry/list] reply. *)
Module HaEntity.
Record t :=
    { entity_id : string; name : js_value; original_name : js_value; area_id : js_value }.
End HaEntity.

(** [data.result], by the shape the reply has. *)
Inductive payload :=
  | RConfig (version : js_value)
  | RStates (l : list HaState.t)
  | RFloors (l : list HaFloor.t)
  | RAreas (l : list HaArea.t)
  | REntities (l : list HaEntity.t)
  | ROther.

(** [JSON.parse(message.data)]: the fields the handlers read. *)
Module Data.
Record t :=
    { type : string; id : Z; success : bool; message : js_value; result : payload }.
End Data.

(** ** The derived view *)

Module Floor.
Record t := { id : js_value; name : js_value; level : js_value }.
End Floor.

Module Room.
Record t := { id : js_value; name : js_value; floor_id : js_value }.
End Room.

(** The objects of [lights] and of [shutters]. *)
Module Device.
Record t := { id : string; name : js_value; state : js_value; area_id : js_value }.
End Device.

Module Sensor.
Record t :=
    { id : string; name : js_value; value : js_value; unit : js_value; area_id : js_value }.
End Sensor.

Module Scene.
Record t := { id : string; name : js_value; area_id : js_value }.
End Scene.

(** ** Frames written to the socket *)

Module Target.
Record t := { entity_id : string }.
End Target.

(** The [params] of a [call_service] request. *)
Module Params.
Record t := { domain : string; service : string; target : Target.t }.
End Params.

(** [JSON.stringify] of the object sent, kept structured:
    [{type: 'auth', access_token}] and [{type, id, ...params}]. *)
Inductive frame :=
  | AuthFrame (access_token : string)
  | RequestFrame (type : string) (id : Z) (params : option Params.t).

Inductive ReadyState := CONNECTING | OPEN | CLOSING | CLOSED.

#[global] Instance ReadyState_eq_dec : EqDecision ReadyState.
Proof. solve_decision. Defined.

(** A [WebSocket] object: its url, its state and what was written to it. *)
Module WebSocket.
Record t := { url : string; readyState : ReadyState; sent : list frame }.

(** [new WebSocket(url)] *)
Definition new (u : string) : t :=
    {| url := u; readyState := CONNECTING; sent := [] |}.

(** [send]: a frame goes on the wire of an open socket only.  (On a
    socket that is still connecting the library raises instead; the
    scripts send from [onopen] and after the test of [call] only.) *)
Definition send (f : frame) (s : t) : t :=
    if decide (readyState s = OPEN)
    then {| url := url s; readyState := OPEN; sent := sent s ++ [f] |}
    else s.

Definition with_readyState (r : ReadyState) (s : t) : t :=
    {| url := url s; readyState := r; sent := sent s |}.
End WebSocket.

(** ** Timers of the event loop *)

Inductive callback := CbConnect | CbRefresh.

Module Timer.
Record t := { handle : nat; fn : callback; delay : Z; repeat : bool }.
End Timer.

Module Timers.
Record t := { pending : list Timer.t; next : nat }.

Definition empty : t := {| pending := []; next := 0 |}.

(** [setTimeout(fn, delay)] and [setInterval(fn, delay)]: the new handle
    and the timers after it. *)
Definition set (fn : callback) (delay : Z) (repeat : bool) (ts : t) : nat * t :=
    (next ts,
     {| pending := pending ts ++ [ {| Timer.handle := next ts; Timer.fn := fn;
                                      Timer.delay := delay; Timer.repeat := repeat |} ];
        next := S (next ts) |}).

(** [h && clearTimeout(h)], [h && clearInterval(h)] *)
Definition clear (h : option nat) (ts : t) : t :=
    match h with
    | Some n =>
        {| pending := List.filter (fun tm => negb (Nat.eqb (Timer.handle tm) n)) (pending ts);
           next := next ts |}
    | None => ts
    end.

Definition scheduled (fn : callback) (delay : Z) (ts : t) : Prop :=
    exists tm, In tm (pending ts) /\ Timer.fn tm = fn /\ Timer.delay tm = delay.
End Timers.

(** ** The host: the [Extension] object and the static documents *)

(** The capability models imported from [schemas/models/*.json]. *)
Inductive model :=
  | floorsModel | roomsModel | lightsModel | shuttersModel | sensorsModel | scenesModel.

(** The function schemas imported from [schemas/functions/*.json]. *)
Inductive schema :=
  | updateLightsFunction | triggerScenesFunction | updateShuttersFunction.

(** The object handed to [yaml.dump]: the six models, then the six
    collections. *)
Module Dump.
Record t :=
  { models : list model;
    floors : list Floor.t; rooms : list Room.t;
    lights : list Device.t; shutters : list Device.t;
    sensors : list Sensor.t; scenes : list Scene.t }.
End Dump.

(** An element of the [instructions] array: a literal text, or the text
    [yaml.dump] makes of an object. *)
Inductive part :=
  | Text (s : string)
  | Yaml (d : Dump.t).

(** [instructions.join('\n')], for a given [yaml.dump]. *)
Definition join (dump : Dump.t -> string) (parts : list part) : string :=
  String.concat "
" (List.map (fun p => match p with Text s => s | Yaml d => dump d end) parts).

Module Extension.
Record t :=
  { enabled : bool;
    errors : list js_value;
    softwareVersion : js_value;
    instructions : option (list part);
    functionSchemas : list schema }.

Definition new : t :=
  {| enabled := false; errors := []; softwareVersion := VUndefined;
     instructions := None; functionSchemas := [] |}.

Definition isEnabled (e : t) : bool := enabled e.

Definition addError (m : js_value) (e : t) : t :=
  {| enabled := enabled e; errors := errors e ++ [m];
     softwareVersion := softwareVersion e;
     instructions := instructions e; functionSchemas := functionSchemas e |}.

Definition clearErrors (e : t) : t :=
  {| enabled := enabled e; errors := [];
     softwareVersion := softwareVersion e;
     instructions := instructions e; functionSchemas := functionSchemas e |}.

Definition setSoftwareVersion (v : js_value) (e : t) : t :=
  {| enabled := enabled e; errors := errors e; softwareVersion := v;
     instructions := instructions e; functionSchemas := functionSchemas e |}.

Definition setInstructions (i : list part) (e : t) : t :=
  {| enabled := enabled e; errors := errors e;
     softwareVersion := softwareVersion e;
     instructions := Some i; functionSchemas := functionSchemas e |}.

Definition setFunctionSchemas (l : list schema) (e : t) : t :=
  {| enabled := enabled e; errors := errors e;
     softwareVersion := softwareVersion e;
     instructions := instructions e; functionSchemas := l |}.
End Extension.

(** ** The module level variables *)

(** [floors], [rooms], [lights], [shutters], [sensors], [scenes]. *)
Module View.
Record t :=
  { floors : list Floor.t; rooms : list Room.t;
    lights : list Device.t; shutters : list Device.t;
    sensors : list Sensor.t; scenes : list Scene.t }.

Definition empty : t :=
  {| floors := []; rooms := []; lights := []; shutters := [];
     sensors := []; scenes := [] |}.
End View.

(** [interval] is declared by [index.mjs] only, [refreshTimeout] and
    [connectTimeout] by [src/main.mjs] only; [console] is what was logged,
    [wsBaseUrl] and [acessToken] are the values of the two parameters. *)
Record State :=
  { id : Z;
    types : gmap Z string;
    units : gmap string js_value;
    states : gmap string js_value;
    view : View.t;
    socket : option WebSocket.t;
    interval : option nat;
    refreshTimeout : option nat;
    connectTimeout : option nat;
    extension : Extension.t;
    timers : Timers.t;
    console : list string;
    wsBaseUrl : string;
    acessToken : string }.

Definition set_id (v : Z) (st : State) : State :=
  {| id := v; types := types st; units := units st; states := states st;
     view := view st; socket := socket st; interval := interval st;
     refreshTimeout := refreshTimeout st; connectTimeout := connectTimeout st;
     extension := extension st; timers := timers st; console := console st;
     wsBaseUrl := wsBaseUrl st; acessToken := acessToken st |}.

Definition set_types (v : gmap Z string) (st : State) : State :=
  {| id := id st; types := v; units := units st; states := states st;
     view := view st; socket := socket st; interval := interval st;
     refreshTimeout := refreshTimeout st; connectTimeout := connectTimeout st;
     extension := extension st; timers := timers st; console := console st;
     wsBaseUrl := wsBaseUrl st; acessToken := acessToken st |}.

Definition set_units (v : gmap string js_value) (st : State) : State :=
  {| id := id st; types := types st; units := v; states := states st;
     view := view st; socket := socket st; interval := interval st;
     refreshTimeout := refreshTimeout st; connectTimeout := connectTimeout st;
     extension := extension st; timers := timers st; console := console st;
     wsBaseUrl := wsBaseUrl st; acessToken := acessToken st |}.

Definition set_states (v : gmap string js_value) (st : State) : State :=
  {| id := id st; types := types st; units := units st; states := v;
     view := view st; socket := socket st; interval := interval st;
     refreshTimeout := refreshTimeout st; connectTimeout := connectTimeout st;
     extension := extension st; timers := timers st; console := console st;
     wsBaseUrl := wsBaseUrl st; acessToken := acessToken st |}.

Definition set_view (v : View.t) (st : State) : State :=
  {| id := id st; types := types st; units := units st; states := states st;
     view := v; socket := socket st; interval := interval st;
     refreshTimeout := refreshTimeout st; connectTimeout := connectTimeout st;
     extension := extension st; timers := timers st; console := console st;
     wsBaseUrl := wsBaseUrl st; acessToken := acessToken st |}.

Definition set_socket (v : option WebSocket.t) (st : State) : State :=
  {| id := id st; types := types st; units := units st; states := states st;
     view := view st; socket := v; interval := interval st;
     refreshTimeout := refreshTimeout st; connectTimeout := connectTimeout st;
     extension := extension st; timers := timers st; console := console st;
     wsBaseUrl := wsBaseUrl st; acessToken := acessToken st |}.

Definition set_interval (v : option nat) (st : State) : State :=
  {| id := id st; types := types st; units := units st; states := states st;
     view := view st; socket := socket st; interval := v;
     refreshTimeout := refreshTimeout st; connectTimeout := connectTimeout st;
     extension := extension st; timers := timers st; console := console st;
     wsBaseUrl := wsBaseUrl st; acessToken := acessToken st |}.

Definition set_refreshTimeout (v : option nat) (st : State) : State :=
  {| id := id st; types := types st; units := units st; states := states st;
     view := view st; socket := socket st; interval := interval st;
     refreshTimeout := v; connectTimeout := connectTimeout st;
     extension := extension st; timers := timers st; console := console st;
     wsBaseUrl := wsBaseUrl st; acessToken := acessToken st |}.

Definition set_connectTimeout (v : option nat) (st : State) : State :=
  {| id := id st; types := types st; units := units st; states := states st;
     view := view st; socket := socket st; interval := interval st;
     refreshTimeout := refreshTimeout st; connectTimeout := v;
     extension := extension st; timers := timers st; console := console st;
     wsBaseUrl := wsBaseUrl st; acessToken := acessToken st |}.

Definition set_extension (v : Extension.t) (st : State) : State :=
  {| id := id st; types := types st; units := units st; states := states st;
     view := view st; socket := socket st; interval := interval st;
     refreshTimeout := refreshTimeout st; connectTimeout := connectTimeout st;
     extension := v; timers := timers st; console := console st;
     wsBaseUrl := wsBaseUrl st; acessToken := acessToken st |}.

Definition set_timers (v : Timers.t) (st : State) : State :=
  {| id := id st; types := types st; units := units st; states := states st;
     view := view st; socket := socket st; interval := interval st;
     refreshTimeout := refreshTimeout st; connectTimeout := connectTimeout st;
     extension := extension st; timers := v; console := console st;
     wsBaseUrl := wsBaseUrl st; acessToken := acessToken st |}.

Definition set_console (v : list string) (st : State) : State :=
  {| id := id st; types := types st; units := units st; states := states st;
     view := view st; socket := socket st; interval := interval st;
     refreshTimeout := refreshTimeout st; connectTimeout := connectTimeout st;
     extension := extension st; timers := timers st; console := v;
     wsBaseUrl := wsBaseUrl st; acessToken := acessToken st |}.

(** The variables as the scripts declare them: [let id = 1], empty maps,
    empty arrays, [let socket = null], no timer. *)
Definition initial (url token : string) : State :=
  {| id := 1; types := ∅; units := ∅; states := ∅;
     view := View.empty; socket := None; interval := None;
     refreshTimeout := None; connectTimeout := None;
     extension := Extension.new; timers := Timers.empty; console := [];
     wsBaseUrl := url; acessToken := token |}.

(** [console.log(s)], [console.error(s)] *)
Definition console_log (s : string) (st : State) : State :=
  set_console (console st ++ [s]) st.

(** [setTimeout(fn, delay)]: the handle and the state. *)
Definition setTimeout (fn : callback) (delay : Z) (st : State) : nat * State :=
  let '(h, ts) := Timers.set fn delay false (timers st) in (h, set_timers ts st).

(** [setInterval(fn, delay)] *)
Definition setInterval (fn : callback) (delay : Z) (st : State) : nat * State :=
  let '(h, ts) := Timers.set fn delay true (timers st) in (h, set_timers ts st).

(** [h && clearTimeout(h)], [h && clearInterval(h)] *)
Definition clearTimer (h : option nat) (st : State) : State :=
  set_timers (Timers.clear h (timers st)) st.

(** ** What the two files share *)

Definition baseInstructions : string := "
You are a home automation assistant, focused solely on managing connected devices in the home.
When asked to calculate an average, **round to the nearest whole number** without explaining the calculation.
".

Definition defaultInstructions : string := "
Currently, there is no connected devices.
Your sole task is to ask the user to install one or more connected devices in the home before proceeding.
".

(** [!l.length] *)
Definition no_length {A} (l : list A) : bool := Nat.eqb (length l) 0.

(** [if (l)] on an array: an object, always truthy. *)
Definition array_truthy {A} (l : list A) : bool := true.

(** The object [udpateMemory] hands to [yaml.dump]. *)
Definition dump_of (v : View.t) : Dump.t :=
  {| Dump.models := [floorsModel; roomsModel; lightsModel;
                     shuttersModel; sensorsModel; scenesModel];
     Dump.floors := View.floors v; Dump.rooms := View.rooms v;
     Dump.lights := View.lights v; Dump.shutters := View.shutters v;
     Dump.sensors := View.sensors v; Dump.scenes := View.scenes v |}.

(** The array [instructions] of [udpateMemory], before it is joined. *)
Definition instructions_of (v : View.t) : list part :=
  let instructions := [Text baseInstructions] in
  if no_length (View.lights v) && no_length (View.shutters v)
     && no_length (View.sensors v) && no_length (View.scenes v)
  then instructions ++ [Text defaultInstructions]
  else
    instructions ++ [Text "``` yaml"] ++ [Yaml (dump_of v)] ++ [Text "```"].

(** The array [functionSchemas] of [udpateMemory]. *)
Definition functionSchemas_of (v : View.t) : list schema :=
  let functionSchemas := [] in
  let functionSchemas :=
    if array_truthy (View.lights v)
    then functionSchemas ++ [updateLightsFunction] else functionSchemas in
  let functionSchemas :=
    if array_truthy (View.scenes v)
    then functionSchemas ++ [triggerScenesFunction] else functionSchemas in
  if array_truthy (View.shutters v)
  then functionSchemas ++ [updateShuttersFunction] else functionSchemas.

(** [udpateMemory] of [src/main.mjs]; [index.mjs] has the same statements
    at the end of its result branch. *)
Definition udpateMemory (st : State) : State :=
  set_extension
    (Extension.setFunctionSchemas (functionSchemas_of (view st))
       (Extension.setInstructions (instructions_of (view st)) (extension st)))
    st.

(** [socket && socket.readyState === WebSocket.OPEN] *)
Definition socket_open (st : State) : bool :=
  match socket st with
  | Some s => bool_decide (WebSocket.readyState s = OPEN)
  | None => false
  end.

(** [call(type, params)]: whether the frame was sent, and the state. *)
Definition call (type : string) (params : option Params.t) (st : State)
  : bool * State :=
  match socket st with
  | None => (false, st)
  | Some s =>
      if negb (bool_decide (WebSocket.readyState s = OPEN)) then (false, st)
      else
        let st := set_socket (Some (WebSocket.send (RequestFrame type (id st) params) s)) st in
        let st := set_types (<[id st := type]> (types st)) st in
        let st := set_id (id st + 1) st in
        (true, st)
  end.

(** The three actions.  Each is the loop [for (const id of ids)] around
    one [call]; the loop variable is written [i] here. *)
Fixpoint trigger_scenes (ids : list string) (st : State) : string * State :=
  match ids with
  | [] => ("Done.", st)
  | i :: ids =>
      let '(ok, st) :=
        call "call_service"
          (Some {| Params.domain := "scene"; Params.service := "turn_on";
                   Params.target := {| Target.entity_id := i |} |}) st in
      if negb ok then ("Error during internal request.", st)
      else trigger_scenes ids st
  end.

Fixpoint update_lights (action : string) (ids : list string) (st : State)
  : string * State :=
  match ids with
  | [] => ("Done.", st)
  | i :: ids =>
      let '(ok, st) :=
        call "call_service"
          (Some {| Params.domain := "light"; Params.service := "turn_" +:+ action;
                   Params.target := {| Target.entity_id := i |} |}) st in
      if negb ok then ("Error during internal request.", st)
      else update_lights action ids st
  end.

Fixpoint update_shutters (action : string) (ids : list string) (st : State)
  : string * State :=
  match ids with
  | [] => ("Done.", st)
  | i :: ids =>
      let '(ok, st) :=
        call "call_service"
          (Some {| Params.domain := "cover"; Params.service := action +:+ "_cover";
                   Params.target := {| Target.entity_id := i |} |}) st in
      if negb ok then ("Error during internal request.", st)
      else update_shutters action ids st
  end.

(** *** Reconciliation of a result *)

(** [states.set(entity.entity_id, entity.state)] for each entity. *)
Definition set_all_states (l : list HaState.t) (m : gmap string js_value)
  : gmap string js_value :=
  fold_left (fun m e => <[HaState.entity_id e := HaState.state e]> m) l m.

(** [entity.attributes.unit_of_measurement !== undefined] *)
Definition has_unit (e : HaState.t) : bool :=
  negb (bool_decide
          (Attributes.unit_of_measurement (HaState.attributes e) = VUndefined)).

(** [units.set(...)] for each entity that passes the filter. *)
Definition set_all_units (l : list HaState.t) (m : gmap string js_value)
  : gmap string js_value :=
  fold_left
    (fun m e =>
       <[HaState.entity_id e :=
           Attributes.unit_of_measurement (HaState.attributes e)]> m)
    (List.filter has_unit l) m.

Definition floors_of (l : list HaFloor.t) : list Floor.t :=
  List.map
    (fun floor => {| Floor.id := HaFloor.floor_id floor;
                     Floor.name := HaFloor.name floor;
                     Floor.level := HaFloor.level floor |}) l.

Definition rooms_of (l : list HaArea.t) : list Room.t :=
  List.map
    (fun area => {| Room.id := HaArea.area_id area;
                    Room.name := HaArea.name area;
                    Room.floor_id := HaArea.floor_id area |}) l.

(** The filter and map that make [lights] (prefix ["light"]) and
    [shutters] (prefix ["cover"]). *)
Definition devices_of (prefix : string) (states : gmap string js_value)
    (l : list HaEntity.t) : list Device.t :=
  List.map
    (fun entity =>
       {| Device.id := HaEntity.entity_id entity;
          Device.name := js_or (HaEntity.name entity) (HaEntity.original_name entity);
          Device.state := map_get states (HaEntity.entity_id entity);
          Device.area_id := HaEntity.area_id entity |})
    (List.filter (fun entity => startsWith (HaEntity.entity_id entity) prefix) l).

(** The callback of the filter that makes [sensors]. *)
Definition is_sensor (states units : gmap string js_value) (entity : HaEntity.t)
  : bool :=
  startsWith (HaEntity.entity_id entity) "sensor"
  && truthy (map_get states (HaEntity.entity_id entity))
  && truthy (map_get units (HaEntity.entity_id entity)).

Definition sensors_of (states units : gmap string js_value) (l : list HaEntity.t)
  : list Sensor.t :=
  List.map
    (fun entity =>
       {| Sensor.id := HaEntity.entity_id entity;
          Sensor.name := js_or (HaEntity.name entity) (HaEntity.original_name entity);
          Sensor.value := map_get states (HaEntity.entity_id entity);
          Sensor.unit := map_get units (HaEntity.entity_id entity);
          Sensor.area_id := HaEntity.area_id entity |})
    (List.filter (is_sensor states units) l).

Definition scenes_of (l : list HaEntity.t) : list Scene.t :=
  List.map
    (fun entity =>
       {| Scene.id := HaEntity.entity_id entity;
          Scene.name := js_or (HaEntity.name entity) (HaEntity.original_name entity);
          Scene.area_id := HaEntity.area_id entity |})
    (List.filter (fun entity => startsWith (HaEntity.entity_id entity) "scene") l).

Definition set_floors (l : list Floor.t) (v : View.t) : View.t :=
  {| View.floors := l; View.rooms := View.rooms v; View.lights := View.lights v;
     View.shutters := View.shutters v; View.sensors := View.sensors v;
     View.scenes := View.scenes v |}.

Definition set_rooms (l : list Room.t) (v : View.t) : View.t :=
  {| View.floors := View.floors v; View.rooms := l; View.lights := View.lights v;
     View.shutters := View.shutters v; View.sensors := View.sensors v;
     View.scenes := View.scenes v |}.

(** The four assignments of the entity registry branch. *)
Definition set_entities (st : State) (l : list HaEntity.t) : View.t :=
  {| View.floors := View.floors (view st); View.rooms := View.rooms (view st);
     View.lights := devices_of "light" (states st) l;
     View.shutters := devices_of "cover" (states st) l;
     View.sensors := sensors_of (states st) (units st) l;
     View.scenes := scenes_of l |}.

(** [type === kind], for [type = types.get(data.id)]. *)
Definition type_is (type : option string) (kind : string) : bool :=
  match type with
  | Some t => String.eqb t kind
  | None => false
  end.

(** The five [if (type === ...)] of the result branch, in their order.
    [None]: the payload has not the shape of the request kind recorded
    under its identifier, which the Home Assistant protocol excludes; the
    handler would read absent fields or raise a [TypeError]. *)
Definition reconcile (data : Data.t) (st : State) : option State :=
  let type := types st !! Data.id data in
  st ← (if type_is type "get_config" then
          match Data.result data with
          | RConfig version =>
              Some (set_extension
                      (Extension.setSoftwareVersion version (extension st)) st)
          | _ => None
          end
        else Some st);
  st ← (if type_is type "get_states" then
          match Data.result data with
          | RStates l =>
              let st := set_states (set_all_states l (states st)) st in
              Some (set_units (set_all_units l (units st)) st)
          | _ => None
          end
        else Some st);
  st ← (if type_is type "config/floor_registry/list" then
          match Data.result data with
          | RFloors l => Some (set_view (set_floors (floors_of l) (view st)) st)
          | _ => None
          end
        else Some st);
  st ← (if type_is type "config/area_registry/list" then
          match Data.result data with
          | RAreas l => Some (set_view (set_rooms (rooms_of l) (view st)) st)
          | _ => None
          end
        else Some st);
  if type_is type "config/entity_registry/list" then
    match Data.result data with
    | REntities l => Some (set_view (set_entities st l) st)
    | _ => None
    end
  else Some st.

(** [update(data)] of [src/main.mjs], and the body of the result branch
    of [index.mjs] (whose [console.log] for ['call_service'] sits inside
    the entity registry branch and is never reached). *)
Definition update (data : Data.t) (st : State) : option State :=
  udpateMemory <$> reconcile data st.

(** [socket.send(JSON.stringify({type: 'auth', access_token}))] of both
    [onopen] handlers. *)
Definition send_auth (st : State) : State :=
  set_socket
    (WebSocket.send (AuthFrame (acessToken st)) <$> socket st) st.

(** The [ws] library sets [readyState] before it calls a handler: [OPEN]
    before [onopen], [CLOSING] before [onerror], [CLOSED] before
    [onclose]. *)
Definition socket_becomes (r : ReadyState) (st : State) : State :=
  set_socket (WebSocket.with_readyState r <$> socket st) st.

(** The event loop has run the timeout of handle [h]: it is pending no
    more. *)
Definition timeout_spent (h : nat) (st : State) : State :=
  set_timers (Timers.clear (Some h) (timers st)) st.

(** What happens on one connection, from [onopen] until [onclose] or
    until [connect] runs again: a frame arrives, the refresh timer fires,
    the socket reports an error, or the host runs one of the three
    actions. *)
Inductive op :=
  | Receive (data : Data.t)
  | Tick
  | Failure (message : string)
  | TriggerScenes (ids : list string)
  | UpdateLights (action : string) (ids : list string)
  | UpdateShutters (action : string) (ids : list string).

(** The three actions, as the host runs them. *)
Definition act (o : op) (st : State) : option State :=
  match o with
  | TriggerScenes ids => Some (snd (trigger_scenes ids st))
  | UpdateLights action ids => Some (snd (update_lights action ids st))
  | UpdateShutters action ids => Some (snd (update_shutters action ids st))
  | _ => None
  end.

(** ** [index.mjs] *)

Module Index.

(** [refresh], local to [connect]. *)
Definition refresh (st : State) : State :=
  let '(_, st) := call "get_config" None st in
  let '(_, st) := call "get_states" None st in
  let '(_, st) := call "config/floor_registry/list" None st in
  let '(_, st) := call "config/area_registry/list" None st in
  let '(_, st) := call "config/entity_registry/list" None st in
  st.

(** [connect].  [thrown] is the message of the error the [WebSocket]
    constructor raises, if it raises one. *)
Definition connect (thrown : option string) (st : State) : State :=
  match thrown with
  | Some message =>
      let st := set_extension (Extension.addError (VStr message) (extension st)) st in
      snd (setTimeout CbConnect 1000 st)
  | None =>
      set_socket (Some (WebSocket.new (wsBaseUrl st +:+ "/api/websocket"))) st
  end.

Definition onerror (message : string) (st : State) : State :=
  let st := set_extension (Extension.addError (VStr message) (extension st)) st in
  snd (setTimeout CbConnect 1000 st).

Definition onopen (st : State) : State :=
  let st := set_extension (Extension.clearErrors (extension st)) st in
  send_auth st.

Definition onmessage (data : Data.t) (st : State) : option State :=
  let st :=
    if String.eqb (Data.type data) "auth_ok" then
      let st := set_extension (Extension.clearErrors (extension st)) st in
      let st := refresh st in
      let '(h, st) := setInterval CbRefresh 5000 st in
      set_interval (Some h) st
    else st in
  let st :=
    if String.eqb (Data.type data) "auth_invalid" then
      set_extension (Extension.addError (Data.message data) (extension st)) st
    else st in
  if String.eqb (Data.type data) "result" && Data.success data then
    update data st
  else Some st.

Definition onclose (st : State) : State :=
  let st := clearTimer (interval st) st in
  let st := snd (setTimeout CbConnect 1000 st) in
  let st := set_id 1 st in
  let st := set_view View.empty st in
  set_extension (Extension.addError (VStr "Server unreachable") (extension st)) st.

(** The script runs [connect()] once when it is loaded. *)
Definition start (url token : string) (thrown : option string) : State :=
  connect thrown (initial url token).

(** One step of a connection, and a sequence of them.  The socket that
    reports an error is closing already. *)
Definition step (o : op) (st : State) : option State :=
  match o with
  | Receive data => onmessage data st
  | Tick => Some (refresh st)
  | Failure message => Some (onerror message (socket_becomes CLOSING st))
  | _ => act o st
  end.

Fixpoint run (ops : list op) (st : State) : option State :=
  match ops with
  | [] => Some st
  | o :: ops => st ← step o st; run ops st
  end.

(** The socket opens on a connection made by [connect]. *)
Definition open (st : State) : State := onopen (socket_becomes OPEN st).

(** The socket closes, and the timeout of the close handler, whose
    handle is the next one at the close, runs [connect]. *)
Definition reconnect (st : State) : State :=
  let h := Timers.next (timers st) in
  connect None (timeout_spent h (onclose (socket_becomes CLOSED st))).

End Index.

(** ** [src/main.mjs] *)

Module Main.

Definition refresh (st : State) : State :=
  let st := clearTimer (refreshTimeout st) st in
  let '(_, st) := call "get_config" None st in
  let '(_, st) := call "get_states" None st in
  let '(_, st) := call "config/floor_registry/list" None st in
  let '(_, st) := call "config/area_registry/list" None st in
  let '(_, st) := call "config/entity_registry/list" None st in
  let '(h, st) := setTimeout CbRefresh 60000 st in
  set_refreshTimeout (Some h) st.

(** [connect]; the constructor is taken to return (the url parameter has
    the type ['url'], which the host validates, and the call has no
    [try]). *)
Definition connect (st : State) : State :=
  let st := clearTimer (connectTimeout st) st in
  let st := set_view View.empty st in
  set_socket (Some (WebSocket.new (wsBaseUrl st +:+ "/api/websocket"))) st.

Definition onopen (st : State) : State :=
  let st := console_log "Connection" st in
  send_auth st.

Definition onerror (message : string) (st : State) : State :=
  if Extension.isEnabled (extension st) then st
  else console_log message st.

Definition onclose (st : State) : State :=
  let '(h, st) := setTimeout CbConnect 5000 st in
  set_connectTimeout (Some h) st.

Definition onmessage (data : Data.t) (st : State) : option State :=
  let st :=
    if String.eqb (Data.type data) "auth_ok" then
      let st := console_log "Authentication successful" st in
      refresh st
    else st in
  let st :=
    if String.eqb (Data.type data) "auth_invalid" then
      let '(h, st) := setTimeout CbConnect 5000 st in
      let st := set_connectTimeout (Some h) st in
      let st := set_id 1 st in
      console_log "Authentication failure" st
    else st in
  if String.eqb (Data.type data) "result" && Data.success data then
    update data st
  else Some st.

(** The script runs [udpateMemory()] once when it is loaded; [connect]
    waits for the ['boot'] event of the host. *)
Definition start (url token : string) : State :=
  udpateMemory (initial url token).

(** One step of a connection, and a sequence of them.  The socket that
    reports an error is closing already. *)
Definition step (o : op) (st : State) : option State :=
  match o with
  | Receive data => onmessage data st
  | Tick => Some (refresh st)
  | Failure message => Some (onerror message (socket_becomes CLOSING st))
  | _ => act o st
  end.

Fixpoint run (ops : list op) (st : State) : option State :=
  match ops with
  | [] => Some st
  | o :: ops => st ← step o st; run ops st
  end.

(** The socket opens on a connection made by [connect]. *)
Definition open (st : State) : State := onopen (socket_becomes OPEN st).

(** The socket closes, and the timeout of the close handler runs
    [connect], which clears it by the handle [connectTimeout] holds. *)
Definition reconnect (st : State) : State :=
  connect (onclose (socket_becomes CLOSED st)).

End Main.

(** * Vocabulary of the properties *)

(** The common shape of the three actions: one [call] per identifier,
    with the parameters [mk i], until a call fails. *)
Fixpoint call_each (mk : string -> Params.t) (ids : list string) (st : State)
  : string * State :=
  match ids with
  | [] => ("Done.", st)
  | i :: ids =>
      let '(ok, st) := call "call_service" (Some (mk i)) st in
      if negb ok then ("Error during internal request.", st)
      else call_each mk ids st
  end.

(** The parameters of the request of each action. *)
Definition scene_params (i : string) : Params.t :=
  {| Params.domain := "scene"; Params.service := "turn_on";
     Params.target := {| Target.entity_id := i |} |}.

Definition light_params (action i : string) : Params.t :=
  {| Params.domain := "light"; Params.service := "turn_" +:+ action;
     Params.target := {| Target.entity_id := i |} |}.

Definition shutter_params (action i : string) : Params.t :=
  {| Params.domain := "cover"; Params.service := action +:+ "_cover";
     Params.target := {| Target.entity_id := i |} |}.

(** The frames written so far to the socket the variable [socket] holds. *)
Definition sent_frames (st : State) : list frame :=
  match socket st with
  | Some s => WebSocket.sent s
  | None => []
  end.

(** The request identifiers of a list of frames, in order. *)
Definition request_ids (l : list frame) : list Z :=
  flat_map (fun f => match f with RequestFrame _ i _ => [i] | AuthFrame _ => [] end) l.

(** One [call_service] frame, as the actions build it. *)
Definition service_frame (i : Z) (domain service entity_id : string) : frame :=
  RequestFrame "call_service" i
    (Some {| Params.domain := domain; Params.service := service;
             Params.target := {| Target.entity_id := entity_id |} |}).

(** How often an identifier occurs in a list of identifiers. *)
Definition occurrences (i : string) (l : list string) : nat :=
  length (List.filter (String.eqb i) l).

(** The last element of a payload that names [i]. *)
Definition last_of (i : string) (l : list HaState.t) : option HaState.t :=
  List.find (fun e => String.eqb (HaState.entity_id e) i) (rev l).

(** The payload [r] has the shape that the branch of the kind [type]
    reads: an object for [get_config], the array of its kind for the
    four listings, anything for another kind or for no kind. *)
Definition agrees (type : option string) (r : payload) : bool :=
  (if type_is type "get_config"
   then match r with RConfig _ => true | _ => false end else true)
  && (if type_is type "get_states"
      then match r with RStates _ => true | _ => false end else true)
  && (if type_is type "config/floor_registry/list"
      then match r with RFloors _ => true | _ => false end else true)
  && (if type_is type "config/area_registry/list"
      then match r with RAreas _ => true | _ => false end else true)
  && (if type_is type "config/entity_registry/list"
      then match r with REntities _ => true | _ => false end else true).

(** [lights], [shutters], [sensors] and [scenes] are all empty. *)
Definition no_device (v : View.t) : Prop :=
  View.lights v = [] /\ View.shutters v = [] /\
  View.sensors v = [] /\ View.scenes v = [].

(** All six collections of the view are empty. *)
Definition all_empty (v : View.t) : Prop :=
  View.floors v = [] /\ View.rooms v = [] /\ no_device v.

(** The text published when there is no device. *)
Definition fallback_text : string :=
  baseInstructions +:+ "
" +:+ defaultInstructions.

(** The timer [setTimeout(connect, delay)] adds to the timers [ts]. *)
Definition connect_timer (delay : Z) (ts : Timers.t) : Timer.t :=
  {| Timer.handle := Timers.next ts; Timer.fn := CbConnect;
     Timer.delay := delay; Timer.repeat := false |}.





(** * Sample frames and sample runs *)

(** The url and the token of the two parameters. *)
Definition sample_url : string := "ws://home-assistant:8123".
Definition sample_token : string := "eyJhbGciOiJIUzI1NiIs".

(** The frame [{type: 'auth_ok'}]; it has no [id], which no branch reads
    for this type. *)
Definition auth_ok : Data.t :=
  {| Data.type := "auth_ok"; Data.id := 0; Data.success := false;
     Data.message := VUndefined; Data.result := ROther |}.

(** The frame [{type: 'auth_invalid', message}]. *)
Definition auth_invalid (message : string) : Data.t :=
  {| Data.type := "auth_invalid"; Data.id := 0; Data.success := false;
     Data.message := VStr message; Data.result := ROther |}.

(** A successful result for the request [i]. *)
Definition result_of (i : Z) (r : payload) : Data.t :=
  {| Data.type := "result"; Data.id := i; Data.success := true;
     Data.message := VUndefined; Data.result := r |}.

(** Three elements of a [get_states] reply: a light without unit, a
    sensor whose state is the empty string, a sensor with a reading. *)
Definition kitchen_on : HaState.t :=
  {| HaState.entity_id := "light.kitchen"; HaState.state := VStr "on";
     HaState.attributes := {| Attributes.unit_of_measurement := VUndefined |} |}.

Definition power_reading : HaState.t :=
  {| HaState.entity_id := "sensor.power"; HaState.state := VStr "";
     HaState.attributes := {| Attributes.unit_of_measurement := VStr "W" |} |}.

Definition outside_reading : HaState.t :=
  {| HaState.entity_id := "sensor.outside"; HaState.state := VStr "21.5";
     HaState.attributes := {| Attributes.unit_of_measurement := VStr "C" |} |}.

Definition sample_states : list HaState.t :=
  [kitchen_on; power_reading; outside_reading].

(** Three elements of an entity registry listing. *)
Definition light_kitchen : HaEntity.t :=
  {| HaEntity.entity_id := "light.kitchen"; HaEntity.name := VNull;
     HaEntity.original_name := VStr "Kitchen"; HaEntity.area_id := VStr "kitchen" |}.

Definition sensor_power : HaEntity.t :=
  {| HaEntity.entity_id := "sensor.power"; HaEntity.name := VStr "Power";
     HaEntity.original_name := VNull; HaEntity.area_id := VNull |}.

Definition sensor_outside : HaEntity.t :=
  {| HaEntity.entity_id := "sensor.outside"; HaEntity.name := VNull;
     HaEntity.original_name := VStr "Outside"; HaEntity.area_id := VNull |}.

Definition sample_entities : list HaEntity.t :=
  [light_kitchen; sensor_power; sensor_outside].

(** An element of a floor registry listing. *)
Definition ground_floor : HaFloor.t :=
  {| HaFloor.floor_id := VStr "ground"; HaFloor.name := VStr "Ground floor";
     HaFloor.level := VNum 0 |}.

(** The variables before any connection. *)
Definition not_connected : State := initial sample_url sample_token.

(** [index.mjs] loaded, the socket opened and the [auth] frame sent. *)
Definition index_opened : State :=
  Index.onopen (socket_becomes OPEN (Index.start sample_url sample_token None)).

(** [index.mjs] with an open socket on which the host has already run
    [update_lights], before any answer to [auth]. *)
Definition index_after_lights : State :=
  snd (update_lights "on" ["light.a"; "light.b"] index_opened).

(** [index.mjs] after [auth_ok]: the five requests of [refresh] carry the
    identifiers 1 to 5: [get_states] the second, the entity registry
    listing the last. *)
Definition index_ready : State :=
  default index_opened (Index.onmessage auth_ok index_opened).

(** [index.mjs] after the reply to [get_states] was handled. *)
Definition index_with_states : State :=
  default index_ready (Index.onmessage (result_of 2 (RStates sample_states)) index_ready).

(** [index.mjs] after the reply to the entity registry listing. *)
Definition index_with_entities : State :=
  default index_with_states
    (Index.onmessage (result_of 5 (REntities sample_entities)) index_with_states).

(** [src/main.mjs] loaded, booted, the socket opened and [auth] sent. *)
Definition main_opened : State :=
  Main.onopen (socket_becomes OPEN (Main.connect (Main.start sample_url sample_token))).

(** [src/main.mjs] after [auth_ok], after the reply to [get_states], and
    after the reply to the entity registry listing. *)
Definition main_ready : State :=
  default main_opened (Main.onmessage auth_ok main_opened).

Definition main_with_states : State :=
  default main_ready (Main.onmessage (result_of 2 (RStates sample_states)) main_ready).

Definition main_with_entities : State :=
  default main_with_states
    (Main.onmessage (result_of 5 (REntities sample_entities)) main_with_states).

(** * Vocabulary of the further properties *)


(** The socket the variable [socket] holds, apart from what was written
    to it: its url and its state. *)
Definition socket_shape (st : State) : option (string * ReadyState) :=
  (fun s => (WebSocket.url s, WebSocket.readyState s)) <$> socket st.






(** Nothing changed from [st] to [st'] but the frames of the socket, the
    pending-request table and the counter. *)
Definition requests_only (st st' : State) : Prop :=
  units st' = units st /\ states st' = states st /\ view st' = view st /\
  extension st' = extension st /\ timers st' = timers st /\
  interval st' = interval st /\ refreshTimeout st' = refreshTimeout st /\
  connectTimeout st' = connectTimeout st /\ console st' = console st.

(** The five requests of [refresh] on a socket whose counter is [k]. *)
Definition refresh_frames (k : Z) : list frame :=
  [RequestFrame "get_config" k None;
   RequestFrame "get_states" (k + 1) None;
   RequestFrame "config/floor_registry/list" (k + 2) None;
   RequestFrame "config/area_registry/list" (k + 3) None;
   RequestFrame "config/entity_registry/list" (k + 4) None].

(** The pending-request table after these five requests. *)
Definition refresh_types (k : Z) (types : gmap Z string) : gmap Z string :=
  <[k + 4 := "config/entity_registry/list"]>
    (<[k + 3 := "config/area_registry/list"]>
       (<[k + 2 := "config/floor_registry/list"]>
          (<[k + 1 := "get_states"]> (<[k := "get_config"]> types)))).

(** The timer [setTimeout(refresh, 60000)] or [setInterval(refresh, 5000)]
    adds to the timers [ts]. *)
Definition refresh_timer (delay : Z) (repeat : bool) (ts : Timers.t) : Timer.t :=
  {| Timer.handle := Timers.next ts; Timer.fn := CbRefresh;
     Timer.delay := delay; Timer.repeat := repeat |}.

(** The [call_service] frames of an action for the identifiers [ids],
    numbered from [k]. *)
Definition service_frames (k : Z) (domain service : string) (ids : list string)
  : list frame :=
  imap (fun n i => service_frame (k + Z.of_nat n) domain service i) ids.

(** What an action on an open socket leaves: "Done.", one frame per
    identifier in the order of the list, numbered from the counter, the
    kind [call_service] recorded under each of these numbers and the rest
    of the pending-request table as it was, the counter past them, and
    nothing else changed. *)
Definition sent_all (domain service : string) (ids : list string)
    (st : State) (r : string * State) : Prop :=
  fst r = "Done." /\
  sent_frames (snd r) = sent_frames st ++ service_frames (id st) domain service ids /\
  id (snd r) = id st + Z.of_nat (length ids) /\
  (forall j, types (snd r) !! j =
             if decide (id st <= j < id st + Z.of_nat (length ids))
             then Some "call_service" else types st !! j) /\
  socket_open (snd r) = true /\
  requests_only st (snd r).

(** The five kinds a result is reconciled for. *)
Definition reconciled_kinds : list string :=
  ["get_config"; "get_states"; "config/floor_registry/list";
   "config/area_registry/list"; "config/entity_registry/list"].

(** [type] is one of these five kinds. *)
Definition reconciled_kind (type : option string) : bool :=
  existsb (type_is type) reconciled_kinds.

(** The identifiers of the four device collections of a view. *)
Definition light_ids (v : View.t) : list string := List.map Device.id (View.lights v).
Definition shutter_ids (v : View.t) : list string := List.map Device.id (View.shutters v).
Definition sensor_ids (v : View.t) : list string := List.map Sensor.id (View.sensors v).
Definition scene_ids (v : View.t) : list string := List.map Scene.id (View.scenes v).

(** An entry of the view with the identifier [i], the name [n] and the
    area [a] comes from the listed entity [e]: same identifier, same
    area, and for name the name of [e] if that is truthy, its original
    name otherwise. *)
Definition made_from (e : HaEntity.t) (i : string) (n a : js_value) : Prop :=
  i = HaEntity.entity_id e /\
  a = HaEntity.area_id e /\
  n = (if truthy (HaEntity.name e) then HaEntity.name e
       else HaEntity.original_name e).

(** [units] holds no undefined value. *)
Definition units_defined (st : State) : Prop :=
  forall i v, units st !! i = Some v -> v <> VUndefined.

(** A script from its load on: a first connection, on which [first]
    happens, and then, for each element of [later], the close of the
    socket, the [connect] that the close handler schedules, the opening
    of the new socket and what happens on it. *)
Definition index_connections (url token : string)
    (first : list op) (later : list (list op)) : option State :=
  fold_left
    (fun st ops => st ≫= fun st => Index.run ops (Index.open (Index.reconnect st)))
    later (Index.run first (Index.open (Index.start url token None))).

Definition main_connections (url token : string)
    (first : list op) (later : list (list op)) : option State :=
  fold_left
    (fun st ops => st ≫= fun st => Main.run ops (Main.open (Main.reconnect st)))
    later (Main.run first (Main.open (Main.connect (Main.start url token)))).

(** A timer that runs [refresh]. *)
Definition is_refresh (tm : Timer.t) : bool :=
  match Timer.fn tm with
  | CbRefresh => true
  | CbConnect => false
  end.

(** The pending timers that run [refresh], or [connect]. *)
Definition refresh_pending (st : State) : list Timer.t :=
  List.filter is_refresh (Timers.pending (timers st)).

Definition connect_pending (st : State) : list Timer.t :=
  List.filter (fun tm => negb (is_refresh tm)) (Timers.pending (timers st)).

(** At most one refresh timer is pending, and [refreshTimeout] holds its
    handle. *)
Definition one_refresh (st : State) : Prop :=
  (length (refresh_pending st) <= 1)%nat /\
  forall tm, In tm (refresh_pending st) -> refreshTimeout st = Some (Timer.handle tm).

(** The event loop runs the timer of handle [h]: the pending timer of
    that handle, and the timers left (a timeout is spent, an interval
    stays); nothing if no such timer is pending. *)
Definition fire_timer (h : nat) (ts : Timers.t) : option (Timer.t * Timers.t) :=
  match List.find (fun tm => Nat.eqb (Timer.handle tm) h) (Timers.pending ts) with
  | Some tm => Some (tm, if Timer.repeat tm then ts else Timers.clear (Some h) ts)
  | None => None
  end.

(** The callback of a timer of [index.mjs] runs; [thrown] as for
    [Index.connect]. *)
Definition index_fire (h : nat) (thrown : option string) (st : State)
  : option State :=
  match fire_timer h (timers st) with
  | Some (tm, ts) =>
      let st := set_timers ts st in
      Some (match Timer.fn tm with
            | CbConnect => Index.connect thrown st
            | CbRefresh => Index.refresh st
            end)
  | None => None
  end.

(** The callback of a timer of [src/main.mjs] runs. *)
Definition main_fire (h : nat) (st : State) : option State :=
  match fire_timer h (timers st) with
  | Some (tm, ts) =>
      let st := set_timers ts st in
      Some (match Timer.fn tm with
            | CbConnect => Main.connect st
            | CbRefresh => Main.refresh st
            end)
  | None => None
  end.

(** Every pending timer has a handle that [setTimeout] has given out
    already, and so does the handle that [interval] holds. *)
Definition handles_used (st : State) : Prop :=
  Forall (fun tm => (Timer.handle tm < Timers.next (timers st))%nat)
         (Timers.pending (timers st)) /\
  forall h, interval st = Some h -> (h < Timers.next (timers st))%nat.

(** * Properties *)

(** Splits a conjunction into its parts, and nothing else. *)
Ltac conjuncts := repeat match goal with |- _ /\ _ => split end.

(** Closes a goal on a sample run by evaluation. *)
Ltac evaluate := vm_compute; reflexivity.

(** ** Sample runs

    The sample states are the states the handlers reach; no [default]
    is used. *)

Lemma index_ready_run : Index.onmessage auth_ok index_opened = Some index_ready.
Proof. vm_compute. reflexivity. Qed.

Lemma index_with_states_run :
  Index.onmessage (result_of 2 (RStates sample_states)) index_ready
  = Some index_with_states.
Proof. vm_compute. reflexivity. Qed.

Lemma index_with_entities_run :
  Index.onmessage (result_of 5 (REntities sample_entities)) index_with_states
  = Some index_with_entities.
Proof. vm_compute. reflexivity. Qed.

Lemma main_run :
  Main.onmessage auth_ok main_opened = Some main_ready /\
  Main.onmessage (result_of 2 (RStates sample_states)) main_ready
    = Some main_with_states /\
  Main.onmessage (result_of 5 (REntities sample_entities)) main_with_states
    = Some main_with_entities.
Proof. cbv zeta. conjuncts; evaluate. Qed.

(** ** [call] *)

Lemma call_not_open type params st :
  socket_open st = false -> call type params st = (false, st).
Proof.
  unfold socket_open, call. destruct (socket st) as [s|]; [|done].
  intros ->. reflexivity.
Qed.

Lemma call_open type params st :
  socket_open st = true ->
  exists st',
    call type params st = (true, st') /\
    socket_open st' = true /\
    sent_frames st' = sent_frames st ++ [RequestFrame type (id st) params] /\
    types st' = <[id st := type]> (types st) /\
    id st' = id st + 1 /\
    units st' = units st /\ states st' = states st /\ view st' = view st /\
    extension st' = extension st /\ timers st' = timers st.
Proof.
  unfold socket_open, call, sent_frames.
  destruct (socket st) as [s|] eqn:Hs; [|done].
  intros Ho. rewrite Ho. cbn [negb].
  apply bool_decide_eq_true in Ho.
  eexists. split; [reflexivity|]. cbn.
  unfold WebSocket.send. rewrite decide_True by done. cbn.
  rewrite bool_decide_eq_true. repeat split; reflexivity.
Qed.

(** ** The loop of the actions *)

Lemma call_each_nil mk st : call_each mk [] st = ("Done.", st).
Proof. reflexivity. Qed.

Lemma call_each_not_open mk ids st :
  socket_open st = false ->
  snd (call_each mk ids st) = st /\
  (ids <> [] -> fst (call_each mk ids st) = "Error during internal request.").
Proof.
  intros Hc. destruct ids as [|i ids]; cbn.
  - split; [reflexivity | congruence].
  - rewrite (call_not_open _ _ _ Hc). cbn. split; reflexivity.
Qed.

Lemma call_each_open mk ids : forall st,
  socket_open st = true ->
  exists st',
    call_each mk ids st = ("Done.", st') /\
    socket_open st' = true /\
    sent_frames st' =
      sent_frames st
        ++ imap (fun k i => RequestFrame "call_service" (id st + Z.of_nat k) (Some (mk i))) ids /\
    id st' = id st + Z.of_nat (length ids).
Proof.
  induction ids as [|i ids IH]; intros st Ho.
  - exists st. cbn. rewrite app_nil_r, Z.add_0_r. done.
  - destruct (call_open "call_service" (Some (mk i)) st Ho)
      as (st1 & Hcall & Ho1 & Hsent & _ & Hid & _).
    destruct (IH st1 Ho1) as (st' & Hrun & Ho' & Hsent' & Hid').
    exists st'. cbn [call_each]. rewrite Hcall. cbn [negb].
    split; [exact Hrun|]. split; [exact Ho'|]. split.
    + rewrite Hsent', Hsent, <- app_assoc. f_equal. cbn [imap app].
      rewrite Z.add_0_r. f_equal. apply imap_ext. intros k x _. cbn.
      rewrite Hid. f_equal. lia.
    + rewrite Hid', Hid. cbn [length]. lia.
Qed.

Lemma trigger_scenes_each ids : forall st,
  trigger_scenes ids st = call_each scene_params ids st.
Proof.
  induction ids as [|i ids IH]; intros st; [reflexivity|].
  cbn. unfold scene_params at 1.
  destruct (call _ _ st) as [[] st1]; cbn; [apply IH | reflexivity].
Qed.

Lemma update_lights_each action ids : forall st,
  update_lights action ids st = call_each (light_params action) ids st.
Proof.
  induction ids as [|i ids IH]; intros st; [reflexivity|].
  cbn. unfold light_params at 1.
  destruct (call _ _ st) as [[] st1]; cbn; [apply IH | reflexivity].
Qed.

Lemma update_shutters_each action ids : forall st,
  update_shutters action ids st = call_each (shutter_params action) ids st.
Proof.
  induction ids as [|i ids IH]; intros st; [reflexivity|].
  cbn. unfold shutter_params at 1.
  destruct (call _ _ st) as [[] st1]; cbn; [apply IH | reflexivity].
Qed.

(** ** The actions on a socket that is not open, and on no target *)

(** C10: each of the three actions, given an empty list of targets,
    returns "Done." and leaves the whole state as it was, so that no
    frame is sent, whatever the socket is. *)
Theorem C10_empty_list_done (action : string) (st : State) :
  trigger_scenes [] st = ("Done.", st) /\
  update_lights action [] st = ("Done.", st) /\
  update_shutters action [] st = ("Done.", st).
Proof.
  rewrite trigger_scenes_each, update_lights_each, update_shutters_each.
  rewrite !call_each_nil. conjuncts; reflexivity.
Qed.

(** C3, as stated, fails on the empty list: with no socket at all,
    [trigger_scenes] of no target answers "Done.". *)
Lemma C3_counterexample :
  socket_open not_connected = false /\
  fst (trigger_scenes [] not_connected) <> "Error during internal request.".
Proof. split; [reflexivity | discriminate]. Qed.

(** C3, amended: while the socket is not open, each of the three actions
    leaves the state as it was (no frame is sent) for every list of
    targets, and returns "Error during internal request." for every
    list that is not empty. *)
Theorem C3_not_open_error (action : string) (ids : list string) (st : State) :
  socket_open st = false ->
  (snd (trigger_scenes ids st) = st /\
   snd (update_lights action ids st) = st /\
   snd (update_shutters action ids st) = st) /\
  (ids <> [] ->
   fst (trigger_scenes ids st) = "Error during internal request." /\
   fst (update_lights action ids st) = "Error during internal request." /\
   fst (update_shutters action ids st) = "Error during internal request.").
Proof.
  intros Hc.
  rewrite trigger_scenes_each, update_lights_each, update_shutters_each.
  split; [|intros Hne]; repeat split;
    solve [ apply call_each_not_open; assumption
          | apply (call_each_not_open _ ids st Hc); assumption ].
Qed.

Lemma C3_not_open_error_witness :
  snd (update_lights "on" ["light.a"; "light.b"] not_connected) = not_connected /\
  fst (update_lights "on" ["light.a"; "light.b"] not_connected)
    = "Error during internal request.".
Proof.
  pose proof (C3_not_open_error "on" ["light.a"; "light.b"] not_connected eq_refl)
    as [(_ & Hs & _) Hf].
  split; [exact Hs|]. apply Hf. discriminate.
Defined.

(** ** [update_lights] on an open socket *)


(** ** Results: how a successful result frame is handled *)

(** A frame of type "result" with [success] true goes to [update] in both
    files, whatever else the state holds. *)
Lemma onmessage_result data st :
  Data.type data = "result" -> Data.success data = true ->
  Index.onmessage data st = update data st /\
  Main.onmessage data st = update data st.
Proof.
  intros Ht Hs. unfold Index.onmessage, Main.onmessage.
  rewrite Ht, Hs. split; reflexivity.
Qed.

Lemma reconcile_states data st l :
  types st !! Data.id data = Some "get_states" ->
  Data.result data = RStates l ->
  reconcile data st =
    Some (set_units (set_all_units l (units st))
            (set_states (set_all_states l (states st)) st)).
Proof. intros Hk Hr. unfold reconcile. rewrite Hk, Hr. reflexivity. Qed.

Lemma reconcile_entities data st l :
  types st !! Data.id data = Some "config/entity_registry/list" ->
  Data.result data = REntities l ->
  reconcile data st = Some (set_view (set_entities st l) st).
Proof. intros Hk Hr. unfold reconcile. rewrite Hk, Hr. reflexivity. Qed.

(** Reconciliation touches neither the counter, nor the pending-request
    table, nor the socket, nor the timers. *)
Lemma reconcile_keeps data st st' :
  reconcile data st = Some st' ->
  id st' = id st /\ types st' = types st /\ socket st' = socket st /\
  timers st' = timers st.
Proof.
  unfold reconcile. intros H.
  repeat match type of H with
         | context [type_is ?t ?k] => destruct (type_is t k)
         end;
    destruct (Data.result data); cbn in H; try discriminate;
    injection H as <-; repeat split.
Qed.

Lemma update_keeps data st st' :
  update data st = Some st' ->
  id st' = id st /\ types st' = types st /\ socket st' = socket st /\
  timers st' = timers st.
Proof.
  unfold update. destruct (reconcile data st) as [st1|] eqn:Hr; [|discriminate].
  cbn. intros [= <-]. apply (reconcile_keeps _ _ _ Hr).
Qed.

(** A result is reconciled exactly when its payload has the shape of its
    kind. *)
Lemma update_defined data st :
  agrees (types st !! Data.id data) (Data.result data) = true <->
  exists st', update data st = Some st'.
Proof.
  unfold update, reconcile, agrees.
  repeat match goal with
         | |- context [type_is ?t ?k] => destruct (type_is t k)
         end;
    destruct (Data.result data); cbn;
    (split; [intros H; try discriminate H; eexists; reflexivity
            | intros [st' H]; try discriminate H; reflexivity]).
Qed.

(** ** The entity registry listing *)

Lemma devices_of_ids prefix states l :
  List.map Device.id (devices_of prefix states l) =
  List.filter (fun i => startsWith i prefix) (List.map HaEntity.entity_id l).
Proof.
  unfold devices_of. induction l as [|e l IH]; [reflexivity|].
  cbn. destruct (startsWith (HaEntity.entity_id e) prefix); cbn; rewrite IH; reflexivity.
Qed.

Lemma devices_of_state prefix states l :
  Forall (fun d => Device.state d = map_get states (Device.id d))
         (devices_of prefix states l).
Proof.
  unfold devices_of. induction l as [|e l IH]; [constructor|].
  cbn. destruct (startsWith (HaEntity.entity_id e) prefix); [|exact IH].
  cbn. constructor; [reflexivity | exact IH].
Qed.

Lemma occurrences_filter (p : string -> bool) i l :
  p i = true -> occurrences i (List.filter p l) = occurrences i l.
Proof.
  intros Hp. unfold occurrences. induction l as [|j l IH]; [reflexivity|].
  cbn. destruct (String.eqb i j) eqn:Hij.
  - apply String.eqb_eq in Hij. subst j. rewrite Hp. cbn.
    rewrite String.eqb_refl. cbn. rewrite IH. reflexivity.
  - destruct (p j); cbn; [rewrite Hij|]; exact IH.
Qed.

(** C1, as stated, fails on a listing that names a light twice: the view
    then holds it twice. *)
Lemma C1_counterexample :
  exists st',
    Index.onmessage (result_of 5 (REntities [light_kitchen; light_kitchen]))
                    index_with_states = Some st' /\
    startsWith "light.kitchen" "light" = true /\
    occurrences "light.kitchen" (List.map Device.id (View.lights (view st'))) = 2%nat.
Proof. eexists. split; [vm_compute; reflexivity|]. split; vm_compute; reflexivity. Qed.

(** C1, amended: when the result of an entity registry listing is
    handled (by either file), the identifiers of [lights] are the
    identifiers of the payload that start with "light", in the order of
    the payload; so each of them is in [lights] as often as the payload
    lists it, exactly once when the payload lists it once.  The [state]
    of every light is what [states] holds for its identifier at that
    moment, and is undefined when [states] holds nothing for it; [states]
    itself is not changed. *)
Theorem C1_lights_of_registry (data : Data.t) (st : State) (l : list HaEntity.t) :
  Data.type data = "result" -> Data.success data = true ->
  types st !! Data.id data = Some "config/entity_registry/list" ->
  Data.result data = REntities l ->
  exists st',
    Index.onmessage data st = Some st' /\
    Main.onmessage data st = Some st' /\
    states st' = states st /\
    List.map Device.id (View.lights (view st')) =
      List.filter (fun i => startsWith i "light") (List.map HaEntity.entity_id l) /\
    (forall i, startsWith i "light" = true ->
       occurrences i (List.map Device.id (View.lights (view st')))
       = occurrences i (List.map HaEntity.entity_id l)) /\
    Forall (fun d =>
              Device.state d = map_get (states st) (Device.id d) /\
              (states st !! Device.id d = None -> Device.state d = VUndefined))
           (View.lights (view st')).
Proof.
  intros Ht Hs Hk Hr.
  destruct (onmessage_result data st Ht Hs) as [-> ->].
  unfold update. rewrite (reconcile_entities data st l Hk Hr). cbn.
  eexists. split; [reflexivity|]. split; [reflexivity|]. cbn.
  split; [reflexivity|]. split; [apply devices_of_ids|]. split.
  - intros i Hi. rewrite devices_of_ids.
    apply (occurrences_filter (fun i => startsWith i "light")), Hi.
  - eapply Forall_impl; [apply devices_of_state|].
    intros d Hd. cbn in Hd. split; [exact Hd|].
    intros Hn. rewrite Hd. unfold map_get. rewrite Hn. reflexivity.
Qed.

Lemma C1_lights_of_registry_witness :
  exists st',
    Index.onmessage (result_of 5 (REntities sample_entities)) index_with_states
      = Some st' /\
    View.lights (view st') =
      [ {| Device.id := "light.kitchen"; Device.name := VStr "Kitchen";
           Device.state := VStr "on"; Device.area_id := VStr "kitchen" |} ] /\
    occurrences "light.kitchen" (List.map Device.id (View.lights (view st'))) = 1%nat.
Proof.
  destruct (C1_lights_of_registry (result_of 5 (REntities sample_entities))
              index_with_states sample_entities eq_refl eq_refl
              ltac:(vm_compute; reflexivity) eq_refl)
    as (st' & Hrun & _ & _ & _ & Hocc & _).
  exists st'. split; [exact Hrun|].
  split; [|exact (Hocc "light.kitchen" eq_refl)].
  vm_compute in Hrun. injection Hrun as <-. vm_compute. reflexivity.
Defined.

(** ** Sensors *)

Lemma sensors_of_spec states units l i :
  (exists s, In s (sensors_of states units l) /\ Sensor.id s = i) <->
  In i (List.map HaEntity.entity_id l) /\
  startsWith i "sensor" = true /\
  truthy (map_get states i) = true /\
  truthy (map_get units i) = true.
Proof.
  unfold sensors_of. split.
  - intros (s & Hin & <-). apply in_map_iff in Hin as (e & <- & He).
    apply filter_In in He as [He Hp]. unfold is_sensor in Hp.
    apply andb_prop in Hp as [Hp Hu]. apply andb_prop in Hp as [Hp Hs]. cbn.
    split; [apply in_map; exact He | auto].
  - intros (Hin & Hp & Hs & Hu). apply in_map_iff in Hin as (e & <- & He).
    eexists. split.
    + apply in_map. apply filter_In. split; [exact He|].
      unfold is_sensor. rewrite Hp, Hs, Hu. reflexivity.
    + reflexivity.
Qed.

Lemma sensors_of_values states units l :
  Forall (fun s => Sensor.value s = map_get states (Sensor.id s) /\
                   Sensor.unit s = map_get units (Sensor.id s))
         (sensors_of states units l).
Proof.
  unfold sensors_of. induction l as [|e l IH]; [constructor|].
  cbn. destruct (is_sensor states units e); [|exact IH].
  cbn. constructor; [split; reflexivity | exact IH].
Qed.

(** C2, as stated, fails on a sensor whose recorded state is the empty
    string: [get_states] recorded the state "" and the unit "W" for
    "sensor.power", the listing names it, and [sensors] leaves it out. *)
Lemma C2_counterexample :
  exists st',
    Index.onmessage (result_of 5 (REntities sample_entities)) index_with_states
      = Some st' /\
    In "sensor.power" (List.map HaEntity.entity_id sample_entities) /\
    startsWith "sensor.power" "sensor" = true /\
    states index_with_states !! "sensor.power" = Some (VStr "") /\
    units index_with_states !! "sensor.power" = Some (VStr "W") /\
    List.map Sensor.id (View.sensors (view st')) = ["sensor.outside"] /\
    ~ In "sensor.power" (List.map Sensor.id (View.sensors (view st'))).
Proof.
  eexists. split; [evaluate|]. split; [cbn; tauto|].
  conjuncts; try evaluate.
  vm_compute. intros [H|[]]. discriminate H.
Qed.

(** C2, amended: when the result of an entity registry listing is
    handled (by either file), an identifier is the identifier of an
    element of [sensors] if and only if the payload lists it, it starts
    with "sensor", and [states] and [units] both hold a truthy value for
    it at that moment (a string that is not empty, for instance).  An
    identifier for which [states] or [units] holds nothing is therefore
    not in [sensors]; and every sensor carries the value and the unit the
    two maps hold for it. *)
Theorem C2_sensors_of_registry (data : Data.t) (st : State) (l : list HaEntity.t) :
  Data.type data = "result" -> Data.success data = true ->
  types st !! Data.id data = Some "config/entity_registry/list" ->
  Data.result data = REntities l ->
  exists st',
    Index.onmessage data st = Some st' /\
    Main.onmessage data st = Some st' /\
    (forall i,
       (exists s, In s (View.sensors (view st')) /\ Sensor.id s = i) <->
       In i (List.map HaEntity.entity_id l) /\
       startsWith i "sensor" = true /\
       truthy (map_get (states st) i) = true /\
       truthy (map_get (units st) i) = true) /\
    (forall i, states st !! i = None \/ units st !! i = None ->
       ~ exists s, In s (View.sensors (view st')) /\ Sensor.id s = i) /\
    Forall (fun s => Sensor.value s = map_get (states st) (Sensor.id s) /\
                     Sensor.unit s = map_get (units st) (Sensor.id s))
           (View.sensors (view st')).
Proof.
  intros Ht Hs Hk Hr.
  destruct (onmessage_result data st Ht Hs) as [-> ->].
  unfold update. rewrite (reconcile_entities data st l Hk Hr). cbn.
  eexists. split; [reflexivity|]. split; [reflexivity|]. cbn.
  split; [intros i; apply sensors_of_spec|]. split.
  - intros i Hnone Hex. apply sensors_of_spec in Hex as (_ & _ & Hs' & Hu').
    unfold map_get in Hs', Hu'.
    destruct Hnone as [Hn|Hn]; rewrite Hn in *; discriminate.
  - apply sensors_of_values.
Qed.

Lemma C2_sensors_of_registry_witness :
  exists st',
    Index.onmessage (result_of 5 (REntities sample_entities)) index_with_states
      = Some st' /\
    ((exists s, In s (View.sensors (view st')) /\ Sensor.id s = "sensor.outside") <->
     In "sensor.outside" (List.map HaEntity.entity_id sample_entities) /\
     startsWith "sensor.outside" "sensor" = true /\
     truthy (map_get (states index_with_states) "sensor.outside") = true /\
     truthy (map_get (units index_with_states) "sensor.outside") = true).
Proof.
  destruct (C2_sensors_of_registry (result_of 5 (REntities sample_entities))
              index_with_states sample_entities eq_refl eq_refl
              ltac:(vm_compute; reflexivity) eq_refl)
    as (st' & Hrun & _ & Hiff & _).
  exists st'. split; [exact Hrun | apply Hiff].
Defined.

(** ** The state snapshot *)

(** A fold of [Map.set] leaves a key alone that no element sets ... *)
Lemma fold_set_frame {A} (key : A -> string) (val : A -> js_value)
    (l : list A) (i : string) :
  forall m : gmap string js_value,
  (forall e, In e l -> key e <> i) ->
  fold_left (fun m e => <[key e := val e]> m) l m !! i = m !! i.
Proof.
  induction l as [|e l IH]; intros m Hne; [reflexivity|].
  cbn. rewrite IH.
  - apply lookup_insert_ne. apply Hne. left. reflexivity.
  - intros e' He'. apply Hne. right. exact He'.
Qed.

(** ... and gives every other key the value of the last element that
    sets it. *)
Lemma fold_set_last {A} (key : A -> string) (val : A -> js_value)
    (l : list A) (i : string) (e : A) :
  forall m : gmap string js_value,
  List.find (fun e => String.eqb (key e) i) (rev l) = Some e ->
  fold_left (fun m e => <[key e := val e]> m) l m !! i = Some (val e).
Proof.
  induction l as [|x l IH] using rev_ind; intros m; [discriminate|].
  rewrite fold_left_app, rev_unit. cbn.
  destruct (String.eqb (key x) i) eqn:Hx.
  - intros [= <-]. apply String.eqb_eq in Hx. subst i. apply lookup_insert_eq.
  - intros Hf. apply String.eqb_neq in Hx.
    rewrite lookup_insert_ne by exact Hx. apply IH, Hf.
Qed.

(** C7: when a successful result of [get_states] is handled (by either
    file), [states] keeps, under every identifier that the payload does
    not name, exactly what it held, and holds under a named identifier
    the state of the last payload entity of that name; [units] keeps,
    under every identifier for which no payload entity has a unit of
    measurement, exactly what it held, and holds under the others the
    unit of the last payload entity of that name that has one. *)
Theorem C7_get_states_merge (data : Data.t) (st : State) (l : list HaState.t) :
  Data.type data = "result" -> Data.success data = true ->
  types st !! Data.id data = Some "get_states" ->
  Data.result data = RStates l ->
  exists st',
    Index.onmessage data st = Some st' /\
    Main.onmessage data st = Some st' /\
    (forall i, ~ In i (List.map HaState.entity_id l) ->
       states st' !! i = states st !! i) /\
    (forall i e, last_of i l = Some e ->
       states st' !! i = Some (HaState.state e)) /\
    (forall i,
       (forall e, In e l -> HaState.entity_id e = i ->
          Attributes.unit_of_measurement (HaState.attributes e) = VUndefined) ->
       units st' !! i = units st !! i) /\
    (forall i e, last_of i (List.filter has_unit l) = Some e ->
       units st' !! i
       = Some (Attributes.unit_of_measurement (HaState.attributes e))).
Proof.
  intros Ht Hs Hk Hr.
  destruct (onmessage_result data st Ht Hs) as [-> ->].
  unfold update. rewrite (reconcile_states data st l Hk Hr). cbn.
  eexists. split; [reflexivity|]. split; [reflexivity|]. cbn.
  unfold set_all_states, set_all_units, last_of. repeat split.
  - intros i Hi. apply fold_set_frame. intros e He <-.
    apply Hi, in_map, He.
  - intros i e He. apply (fold_set_last _ _ _ _ _ _ He).
  - intros i Hi. apply fold_set_frame. intros e He Hid.
    apply filter_In in He as [He Hu]. unfold has_unit in Hu.
    rewrite (Hi e He Hid) in Hu. discriminate.
  - intros i e He.
    apply (fold_set_last HaState.entity_id
             (fun e => Attributes.unit_of_measurement (HaState.attributes e))
             _ _ _ _ He).
Qed.

Lemma C7_get_states_merge_witness :
  exists st',
    Index.onmessage (result_of 2 (RStates sample_states)) index_ready = Some st' /\
    states st' !! "light.hall" = states index_ready !! "light.hall" /\
    states st' !! "light.kitchen" = Some (VStr "on") /\
    units st' !! "light.kitchen" = units index_ready !! "light.kitchen" /\
    units st' !! "sensor.outside" = Some (VStr "C").
Proof.
  destruct (C7_get_states_merge (result_of 2 (RStates sample_states))
              index_ready sample_states eq_refl eq_refl
              ltac:(vm_compute; reflexivity) eq_refl)
    as (st' & Hrun & _ & Hs & Hs' & Hu & Hu').
  exists st'. split; [exact Hrun|]. split; [|split; [|split]].
  - apply Hs. vm_compute. intuition discriminate.
  - apply (Hs' "light.kitchen" kitchen_on). vm_compute. reflexivity.
  - apply Hu. intros e He Hid.
    cbn in He. destruct He as [<-|[<-|[<-|[]]]]; try discriminate Hid. reflexivity.
  - apply (Hu' "sensor.outside" outside_reading). vm_compute. reflexivity.
Defined.

(** ** The instructions *)

Lemma no_length_nil {A} (l : list A) : no_length l = true <-> l = [].
Proof. destruct l; cbn; split; congruence. Qed.

Lemma no_device_dec (v : View.t) : {no_device v} + {~ no_device v}.
Proof.
  unfold no_device.
  destruct (View.lights v); [|right; intros (H & _); discriminate].
  destruct (View.shutters v); [|right; intros (_ & H & _); discriminate].
  destruct (View.sensors v); [|right; intros (_ & _ & H & _); discriminate].
  destruct (View.scenes v); [|right; intros (_ & _ & _ & H); discriminate].
  left. repeat split.
Qed.

Lemma instructions_of_no_device v :
  no_device v ->
  instructions_of v = [Text baseInstructions; Text defaultInstructions].
Proof.
  intros (Hl & Hsh & Hse & Hsc). unfold instructions_of.
  rewrite Hl, Hsh, Hse, Hsc. reflexivity.
Qed.

Lemma instructions_of_device v :
  ~ no_device v ->
  instructions_of v =
    [Text baseInstructions; Text "``` yaml"; Yaml (dump_of v); Text "```"].
Proof.
  intros Hn. unfold instructions_of.
  destruct (no_length (View.lights v) && no_length (View.shutters v)
            && no_length (View.sensors v) && no_length (View.scenes v)) eqn:Hb;
    [|reflexivity].
  exfalso. apply Hn.
  apply andb_prop in Hb as [Hb Hsc]. apply andb_prop in Hb as [Hb Hse].
  apply andb_prop in Hb as [Hl Hsh].
  repeat split; apply no_length_nil; assumption.
Qed.

Lemma append_inj_r (a x y : string) : a +:+ x = a +:+ y -> x = y.
Proof. induction a as [|c a IH]; cbn; [auto|]. intros [= H]. auto. Qed.

Lemma update_inv data st st' :
  update data st = Some st' ->
  exists st1, reconcile data st = Some st1 /\ st' = udpateMemory st1.
Proof.
  unfold update. destruct (reconcile data st) as [st1|]; [|discriminate].
  cbn. intros [= <-]. exists st1. split; reflexivity.
Qed.

(** C9, as stated, fails once a floor is known and no device is: the
    reply to the floor listing leaves a view that is not empty, and the
    text published for it is the fallback block. *)
Lemma C9_counterexample :
  exists st',
    Index.onmessage (result_of 3 (RFloors [ground_floor])) index_ready = Some st' /\
    ~ all_empty (view st') /\
    Extension.instructions (extension st')
      = Some [Text baseInstructions; Text defaultInstructions].
Proof.
  eexists. split; [vm_compute; reflexivity|]. split.
  - intros (H & _). vm_compute in H. discriminate.
  - vm_compute. reflexivity.
Qed.

(** C9, amended: every result whose payload has the shape of its kind is
    reconciled, and the instructions then published are made from the
    view as reconciled; they hold the fallback block if and only if
    [lights], [shutters], [sensors] and [scenes] are all empty ([floors]
    and [rooms] are not looked at), and are then the preamble and the
    fallback block; otherwise they are the preamble, the line that opens
    a yaml block, the dump of one object, and the line that closes the
    block, and the object dumped holds the six capability models (floors,
    rooms, lights, shutters, sensors, scenes, in this order) and, under
    their six names, the six collections of the view as reconciled.
    Whatever [yaml.dump] prints, the joined text is the fallback text in
    the first case only.  The three function schemas are always
    published. *)
Theorem C9_instructions (data : Data.t) (st : State) :
  agrees (types st !! Data.id data) (Data.result data) = true ->
  exists st' parts,
    update data st = Some st' /\
    Extension.instructions (extension st') = Some parts /\
    parts = instructions_of (view st') /\
    (In (Text defaultInstructions) parts <-> no_device (view st')) /\
    (no_device (view st') ->
       parts = [Text baseInstructions; Text defaultInstructions]) /\
    (~ no_device (view st') ->
       parts =
         [Text baseInstructions; Text "``` yaml";
          Yaml {| Dump.models := [floorsModel; roomsModel; lightsModel;
                                  shuttersModel; sensorsModel; scenesModel];
                  Dump.floors := View.floors (view st');
                  Dump.rooms := View.rooms (view st');
                  Dump.lights := View.lights (view st');
                  Dump.shutters := View.shutters (view st');
                  Dump.sensors := View.sensors (view st');
                  Dump.scenes := View.scenes (view st') |};
          Text "```"]) /\
    (forall dump, join dump parts = fallback_text <-> no_device (view st')) /\
    Extension.functionSchemas (extension st')
      = [updateLightsFunction; triggerScenesFunction; updateShuttersFunction].
Proof.
  intros Ha. apply update_defined in Ha as [st' Hu]. exists st'.
  pose proof Hu as (st1 & _ & ->)%update_inv.
  exists (instructions_of (view st1)). split; [exact Hu|]. cbn.
  split; [reflexivity|]. split; [reflexivity|].
  destruct (no_device_dec (view st1)) as [Hy|Hn].
  - rewrite (instructions_of_no_device _ Hy).
    split; [split; [intros _; exact Hy | intros _; cbn; tauto]|].
    split; [reflexivity|]. split; [tauto|]. split; [|reflexivity].
    intros dump. split; [intros _; exact Hy | reflexivity].
  - rewrite (instructions_of_device _ Hn).
    split; [split; [|tauto]|].
    { cbn. intros [H|[H|[H|[H|[]]]]]; discriminate H. }
    split; [tauto|]. split; [reflexivity|]. split; [|reflexivity].
    intros dump. split; [|tauto]. intros Hj. exfalso.
    unfold join, fallback_text in Hj. cbn [List.map String.concat] in Hj.
    apply append_inj_r in Hj. cbn in Hj. discriminate Hj.
Qed.

Lemma C9_instructions_witness :
  ~ no_device (view index_with_entities) /\
  Extension.instructions (extension index_with_entities)
    = Some
        [Text baseInstructions; Text "``` yaml";
         Yaml {| Dump.models := [floorsModel; roomsModel; lightsModel;
                                 shuttersModel; sensorsModel; scenesModel];
                 Dump.floors := [];
                 Dump.rooms := [];
                 Dump.lights :=
                   [{| Device.id := "light.kitchen"; Device.name := VStr "Kitchen";
                       Device.state := VStr "on";
                       Device.area_id := VStr "kitchen" |}];
                 Dump.shutters := [];
                 Dump.sensors :=
                   [{| Sensor.id := "sensor.outside"; Sensor.name := VStr "Outside";
                       Sensor.value := VStr "21.5"; Sensor.unit := VStr "C";
                       Sensor.area_id := VNull |}];
                 Dump.scenes := [] |};
         Text "```"].
Proof.
  destruct (C9_instructions (result_of 5 (REntities sample_entities))
              index_with_states ltac:(vm_compute; reflexivity))
    as (st' & parts & Hu & Hp & _ & _ & _ & Hdump & _).
  assert (Hst : st' = index_with_entities).
  { vm_compute in Hu. injection Hu as <-. vm_compute. reflexivity. }
  subst st'.
  assert (Hn : ~ no_device (view index_with_entities))
    by (intros (H & _); vm_compute in H; discriminate H).
  split; [exact Hn|]. rewrite Hp. f_equal. rewrite (Hdump Hn).
  vm_compute. reflexivity.
Defined.

(** ** The close event *)

Lemma clear_removes h ts tm :
  In tm (Timers.pending (Timers.clear (Some h) ts)) -> Timer.handle tm <> h.
Proof.
  cbn. intros Hin%filter_In. destruct Hin as [_ Hne].
  apply negb_true_iff, Nat.eqb_neq in Hne. exact Hne.
Qed.

(** C5, as stated, fails in both files: after the close handler of
    [index.mjs], [states], [units] and the pending-request table still
    hold what they held; the close handler of [src/main.mjs] leaves the
    view as it was, reports no error and leaves the refresh timer
    pending. *)
Lemma C5_counterexample :
  (let st' := Index.onclose (socket_becomes CLOSED index_with_entities) in
   states st' !! "light.kitchen" = Some (VStr "on") /\
   units st' !! "sensor.power" = Some (VStr "W") /\
   types st' !! 2 = Some "get_states") /\
  (let st' := Main.onclose (socket_becomes CLOSED main_with_entities) in
   List.map Device.id (View.lights (view st')) = ["light.kitchen"] /\
   Extension.errors (extension st') = [] /\
   List.map Timer.fn (Timers.pending (timers st')) = [CbRefresh; CbConnect]).
Proof. cbv zeta. conjuncts; evaluate. Qed.

(** C5, amended.  The close handler of [index.mjs] empties the six
    collections of the view, resets the counter to 1, adds "Server
    unreachable" to the errors of the host, clears the refresh interval
    (no timer with its handle stays pending) and schedules [connect]
    after 1000 ms.  The close handler of [src/main.mjs] only schedules
    [connect] after 5000 ms: view, counter, errors and the other timers
    stay; the view is emptied when that [connect] runs.  Neither handler,
    nor [connect], changes [states], [units] or the pending-request
    table. *)
Theorem C5_close (st : State) :
  (let st' := Index.onclose st in
   view st' = View.empty /\
   id st' = 1 /\
   Extension.errors (extension st')
     = Extension.errors (extension st) ++ [VStr "Server unreachable"] /\
   Timers.pending (timers st')
     = Timers.pending (Timers.clear (interval st) (timers st))
         ++ [connect_timer 1000 (timers st)] /\
   (forall h tm, interval st = Some h ->
      In tm (Timers.pending (Timers.clear (interval st) (timers st))) ->
      Timer.handle tm <> h) /\
   states st' = states st /\ units st' = units st /\ types st' = types st /\
   (forall thrown,
      states (Index.connect thrown st') = states st /\
      units (Index.connect thrown st') = units st /\
      types (Index.connect thrown st') = types st)) /\
  (let st' := Main.onclose st in
   Timers.pending (timers st')
     = Timers.pending (timers st) ++ [connect_timer 5000 (timers st)] /\
   connectTimeout st' = Some (Timers.next (timers st)) /\
   view st' = view st /\ id st' = id st /\ extension st' = extension st /\
   states st' = states st /\ units st' = units st /\ types st' = types st /\
   view (Main.connect st') = View.empty /\
   states (Main.connect st') = states st /\
   units (Main.connect st') = units st /\
   types (Main.connect st') = types st).
Proof.
  split.
  - cbn. repeat split.
    + unfold clearTimer. cbn. destruct (interval st); reflexivity.
    + intros h tm Hi. rewrite Hi. apply clear_removes.
    + destruct thrown; reflexivity.
    + destruct thrown; reflexivity.
    + destruct thrown; reflexivity.
  - cbn. repeat split.
Qed.

(** ** The [auth_invalid] frame *)

(** C6, as stated, fails in both files: [index.mjs] neither resets the
    counter nor schedules anything when [auth_invalid] arrives;
    [src/main.mjs] reports no error. *)
Lemma C6_counterexample :
  (exists st',
     Index.onmessage (auth_invalid "Invalid access token or password")
                     index_after_lights = Some st' /\
     id index_after_lights = 3 /\ id st' = 3 /\
     Timers.pending (timers st') = []) /\
  (exists st',
     Main.onmessage (auth_invalid "Invalid access token or password")
                    main_opened = Some st' /\
     Extension.errors (extension st') = []).
Proof.
  split; eexists; (split; [evaluate|]); conjuncts; evaluate.
Qed.

(** C6, amended.  On [auth_invalid], [index.mjs] adds the message of the
    server to the errors of the host and does nothing else: counter,
    timers and socket stay (the close handler resets and reschedules).
    [src/main.mjs] schedules [connect] after 5000 ms, resets the counter
    to 1 and logs "Authentication failure" to the console; it reports
    nothing to the host.  Neither writes a frame to the socket. *)
Theorem C6_auth_invalid (data : Data.t) (st : State) :
  Data.type data = "auth_invalid" ->
  (exists st',
     Index.onmessage data st = Some st' /\
     Extension.errors (extension st')
       = Extension.errors (extension st) ++ [Data.message data] /\
     id st' = id st /\ timers st' = timers st /\ socket st' = socket st) /\
  (exists st',
     Main.onmessage data st = Some st' /\
     id st' = 1 /\
     Timers.pending (timers st')
       = Timers.pending (timers st) ++ [connect_timer 5000 (timers st)] /\
     connectTimeout st' = Some (Timers.next (timers st)) /\
     console st' = console st ++ ["Authentication failure"] /\
     extension st' = extension st /\
     socket st' = socket st).
Proof.
  intros Ht. unfold Index.onmessage, Main.onmessage. rewrite Ht. cbn.
  split; eexists; (split; [reflexivity|]); cbn; repeat split.
Qed.

Lemma C6_auth_invalid_witness :
  (exists st',
     Index.onmessage (auth_invalid "Invalid access token or password")
                     index_opened = Some st' /\
     Extension.errors (extension st') = [VStr "Invalid access token or password"] /\
     sent_frames st' = [AuthFrame sample_token]) /\
  (exists st',
     Main.onmessage (auth_invalid "Invalid access token or password")
                    main_opened = Some st' /\
     id st' = 1 /\
     console st' = ["Connection"; "Authentication failure"] /\
     sent_frames st' = [AuthFrame sample_token]).
Proof.
  destruct (C6_auth_invalid (auth_invalid "Invalid access token or password")
              index_opened eq_refl) as [(s1 & H1 & He & _ & _ & Hs1) _].
  destruct (C6_auth_invalid (auth_invalid "Invalid access token or password")
              main_opened eq_refl) as [_ (s2 & H2 & Hi & _ & _ & Hc & _ & Hs2)].
  split.
  - exists s1. split; [exact H1|]. split; [exact He|].
    unfold sent_frames. rewrite Hs1. reflexivity.
  - exists s2. split; [exact H2|]. split; [exact Hi|]. split; [exact Hc|].
    unfold sent_frames. rewrite Hs2. reflexivity.
Defined.

(** ** Request identifiers *)



























(** ** [update_lights] on an open socket *)




(** ** Where the numbering starts *)



(** A second connection of [index.mjs]: the requests of [refresh] and a
    command are numbered from 1 again. *)
Example index_second_connection :
  (sent_frames <$>
     Index.run [Receive auth_ok; UpdateLights "off" ["light.kitchen"]]
               (Index.open (Index.reconnect index_with_entities)))
  = Some [AuthFrame sample_token;
          RequestFrame "get_config" 1 None;
          RequestFrame "get_states" 2 None;
          RequestFrame "config/floor_registry/list" 3 None;
          RequestFrame "config/area_registry/list" 4 None;
          RequestFrame "config/entity_registry/list" 5 None;
          service_frame 6 "light" "turn_off" "light.kitchen"].
Proof. evaluate. Qed.

(** * Further properties *)

(** ** [call] and [refresh] *)

Lemma call_requests_only type params st :
  requests_only st (snd (call type params st)).
Proof.
  unfold call. destruct (socket st) as [s|]; [|repeat split].
  destruct (negb _); repeat split.
Qed.

Lemma requests_only_trans st1 st2 st3 :
  requests_only st1 st2 -> requests_only st2 st3 -> requests_only st1 st3.
Proof.
  unfold requests_only.
  intros (A1 & A2 & A3 & A4 & A5 & A6 & A7 & A8 & A9)
         (B1 & B2 & B3 & B4 & B5 & B6 & B7 & B8 & B9).
  repeat split; congruence.
Qed.

Lemma refresh_calls_open st :
  socket_open st = true ->
  socket_open (Index.refresh st) = true /\
  sent_frames (Index.refresh st) = sent_frames st ++ refresh_frames (id st) /\
  types (Index.refresh st) = refresh_types (id st) (types st) /\
  id (Index.refresh st) = id st + 5 /\
  requests_only st (Index.refresh st).
Proof.
  intros Ho. unfold Index.refresh.
  destruct (call_open "get_config" None st Ho)
    as (s1 & E1 & O1 & F1 & T1 & I1 & _).
  pose proof (call_requests_only "get_config" None st) as R1.
  rewrite E1 in *. cbn [snd] in R1.
  destruct (call_open "get_states" None s1 O1)
    as (s2 & E2 & O2 & F2 & T2 & I2 & _).
  pose proof (call_requests_only "get_states" None s1) as R2.
  rewrite E2 in *. cbn [snd] in R2.
  destruct (call_open "config/floor_registry/list" None s2 O2)
    as (s3 & E3 & O3 & F3 & T3 & I3 & _).
  pose proof (call_requests_only "config/floor_registry/list" None s2) as R3.
  rewrite E3 in *. cbn [snd] in R3.
  destruct (call_open "config/area_registry/list" None s3 O3)
    as (s4 & E4 & O4 & F4 & T4 & I4 & _).
  pose proof (call_requests_only "config/area_registry/list" None s3) as R4.
  rewrite E4 in *. cbn [snd] in R4.
  destruct (call_open "config/entity_registry/list" None s4 O4)
    as (s5 & E5 & O5 & F5 & T5 & I5 & _).
  pose proof (call_requests_only "config/entity_registry/list" None s4) as R5.
  rewrite E5 in *. cbn [snd] in R5.
  split; [exact O5|]. split; [|split; [|split]].
  - rewrite F5, F4, F3, F2, F1, I4, I3, I2, I1. unfold refresh_frames.
    rewrite <- !app_assoc. cbn [app].
    repeat (f_equal; try lia).
  - rewrite T5, T4, T3, T2, T1, I4, I3, I2, I1. unfold refresh_types.
    repeat (f_equal; try lia).
  - lia.
  - eauto using requests_only_trans.
Qed.

Lemma refresh_calls_not_open st :
  socket_open st = false -> Index.refresh st = st.
Proof.
  intros Hc. unfold Index.refresh.
  rewrite !(call_not_open _ _ _ Hc). reflexivity.
Qed.

(** [refresh] of [src/main.mjs] is the five calls of [refresh] of
    [index.mjs] between a [clearTimeout] and a [setTimeout]. *)
Lemma main_refresh_calls st :
  Main.refresh st =
    let st5 := Index.refresh (clearTimer (refreshTimeout st) st) in
    set_refreshTimeout (Some (Timers.next (timers st5)))
      (set_timers (snd (Timers.set CbRefresh 60000 false (timers st5))) st5).
Proof.
  unfold Main.refresh, Index.refresh. cbn zeta.
  repeat match goal with
         | |- context [call ?t ?p ?s] => destruct (call t p s) as [? ?]
         end.
  reflexivity.
Qed.

(** X1: when [auth_ok] arrives on an open socket, [index.mjs] clears the
    errors of the host, sends the five requests of [refresh] in their
    fixed order under the identifiers counter, ..., counter + 4, records
    their kinds, and arms a repeating refresh every 5000 ms, leaving
    view and caches alone; [src/main.mjs] logs, cancels the refresh
    timer it holds, sends and records the same five requests, and arms
    one refresh after 60000 ms, leaving the host's errors alone. *)
Theorem X1_auth_ok_refresh (data : Data.t) (st : State) :
  Data.type data = "auth_ok" -> socket_open st = true ->
  (exists st',
     Index.onmessage data st = Some st' /\
     Extension.errors (extension st') = [] /\
     sent_frames st' = sent_frames st ++ refresh_frames (id st) /\
     types st' = refresh_types (id st) (types st) /\
     id st' = id st + 5 /\
     interval st' = Some (Timers.next (timers st)) /\
     Timers.pending (timers st')
       = Timers.pending (timers st) ++ [refresh_timer 5000 true (timers st)] /\
     view st' = view st /\ states st' = states st /\ units st' = units st) /\
  (exists st',
     Main.onmessage data st = Some st' /\
     console st' = console st ++ ["Authentication successful"] /\
     sent_frames st' = sent_frames st ++ refresh_frames (id st) /\
     types st' = refresh_types (id st) (types st) /\
     id st' = id st + 5 /\
     refreshTimeout st' = Some (Timers.next (timers st)) /\
     Timers.pending (timers st')
       = Timers.pending (Timers.clear (refreshTimeout st) (timers st))
           ++ [refresh_timer 60000 false (timers st)] /\
     extension st' = extension st /\
     view st' = view st /\ states st' = states st /\ units st' = units st).
Proof.
  intros Ht Ho. split.
  - unfold Index.onmessage. rewrite Ht. cbn [String.eqb Ascii.eqb Bool.eqb andb].
    set (st0 := set_extension (Extension.clearErrors (extension st)) st).
    destruct (refresh_calls_open st0 Ho)
      as (_ & HF & HT & HI & (R1 & R2 & R3 & R4 & R5 & _)).
    eexists. split; [reflexivity|]. unfold setInterval. cbn.
    rewrite R4, R5. conjuncts; try reflexivity; try assumption.
  - unfold Main.onmessage. rewrite Ht. cbn [String.eqb Ascii.eqb Bool.eqb andb].
    rewrite main_refresh_calls. cbn zeta.
    set (st0 := clearTimer (refreshTimeout (console_log "Authentication successful" st))
                  (console_log "Authentication successful" st)).
    destruct (refresh_calls_open st0 Ho)
      as (_ & HF & HT & HI & (R1 & R2 & R3 & R4 & R5 & R6 & R7 & R8 & R9)).
    eexists. split; [reflexivity|]. cbn.
    rewrite R5, R9, R4. conjuncts; try reflexivity; try assumption;
      subst st0; cbn; destruct (refreshTimeout st); reflexivity.
Qed.

Lemma X1_auth_ok_refresh_witness :
  (sent_frames <$> Index.onmessage auth_ok index_opened)
    = Some (AuthFrame sample_token :: refresh_frames 1) /\
  (sent_frames <$> Main.onmessage auth_ok main_opened)
    = Some (AuthFrame sample_token :: refresh_frames 1).
Proof.
  destruct (X1_auth_ok_refresh auth_ok index_opened eq_refl eq_refl)
    as [(s1 & E1 & _ & F1 & _) _].
  destruct (X1_auth_ok_refresh auth_ok main_opened eq_refl eq_refl)
    as [_ (s2 & E2 & _ & F2 & _)].
  rewrite E1, E2. cbn [fmap option_fmap option_map]. rewrite F1, F2.
  split; reflexivity.
Defined.

(** X2: while the socket is not open, [refresh] sends and records
    nothing.  In [index.mjs] it changes nothing at all; in
    [src/main.mjs] it still cancels the refresh timer it holds and arms
    the next one after 60000 ms, so that polling goes on while the
    connection is down. *)
Theorem X2_refresh_not_open (st : State) :
  socket_open st = false ->
  Index.refresh st = st /\
  sent_frames (Main.refresh st) = sent_frames st /\
  types (Main.refresh st) = types st /\
  id (Main.refresh st) = id st /\
  refreshTimeout (Main.refresh st) = Some (Timers.next (timers st)) /\
  Timers.pending (timers (Main.refresh st))
    = Timers.pending (Timers.clear (refreshTimeout st) (timers st))
        ++ [refresh_timer 60000 false (timers st)].
Proof.
  intros Hc. split; [apply refresh_calls_not_open, Hc|].
  rewrite main_refresh_calls. cbn zeta.
  rewrite refresh_calls_not_open by exact Hc. cbn.
  conjuncts; try reflexivity; destruct (refreshTimeout st); reflexivity.
Qed.

Lemma X2_refresh_not_open_witness :
  Index.refresh not_connected = not_connected /\
  List.map Timer.fn (Timers.pending (timers (Main.refresh not_connected)))
    = [CbRefresh].
Proof.
  destruct (X2_refresh_not_open not_connected eq_refl) as (H1 & _ & _ & _ & _ & H2).
  split; [exact H1|]. rewrite H2. reflexivity.
Defined.

(** ** The actions on an open socket *)

Lemma requests_only_refl st : requests_only st st.
Proof. repeat split. Qed.

Lemma call_each_requests_only mk ids : forall st,
  requests_only st (snd (call_each mk ids st)).
Proof.
  induction ids as [|i ids IH]; intros st; [apply requests_only_refl|].
  cbn [call_each].
  pose proof (call_requests_only "call_service" (Some (mk i)) st) as Hc.
  destruct (call "call_service" (Some (mk i)) st) as [[] st1]; cbn [snd negb] in *.
  - eapply requests_only_trans; [exact Hc | apply IH].
  - exact Hc.
Qed.

Lemma call_each_open_types mk ids : forall st j,
  socket_open st = true ->
  types (snd (call_each mk ids st)) !! j =
    if decide (id st <= j < id st + Z.of_nat (length ids))
    then Some "call_service" else types st !! j.
Proof.
  induction ids as [|i ids IH]; intros st j Ho.
  - cbn. rewrite decide_False by lia. reflexivity.
  - destruct (call_open "call_service" (Some (mk i)) st Ho)
      as (st1 & Hcall & Ho1 & _ & Hty & Hid & _).
    cbn [call_each]. rewrite Hcall. cbn [negb].
    rewrite (IH st1 j Ho1), Hid, Hty. cbn [length].
    rewrite lookup_insert.
    repeat case_decide; try reflexivity; lia.
Qed.

Lemma call_each_sent_all domain service mk ids st :
  (forall i, mk i = {| Params.domain := domain; Params.service := service;
                       Params.target := {| Target.entity_id := i |} |}) ->
  socket_open st = true ->
  sent_all domain service ids st (call_each mk ids st).
Proof.
  intros Hmk Ho.
  destruct (call_each_open mk ids st Ho) as (st' & Hrun & Ho' & Hsent & Hid).
  pose proof (call_each_open_types mk ids st) as Hty.
  pose proof (call_each_requests_only mk ids st) as Hro.
  rewrite Hrun in *. cbn [snd] in *. unfold sent_all. cbn [fst snd].
  conjuncts; try assumption; try reflexivity.
  - rewrite Hsent. f_equal. unfold service_frames. apply imap_ext.
    intros n i _. cbn. unfold service_frame. rewrite Hmk. reflexivity.
  - intros j. apply Hty, Ho.
Qed.

(** X3: on an open socket each of the three actions returns "Done." for
    every list of identifiers, and appends one [call_service] frame per
    identifier, in the order of the list and numbered from the counter,
    with the domain "scene", "light" or "cover" and the service
    "turn_on", "turn_" followed by the action, or the action followed by
    "_cover"; it records [call_service] under each of these numbers,
    moves the counter past them and changes nothing else. *)
Theorem X3_actions_open (action : string) (ids : list string) (st : State) :
  socket_open st = true ->
  sent_all "scene" "turn_on" ids st (trigger_scenes ids st) /\
  sent_all "light" ("turn_" +:+ action) ids st (update_lights action ids st) /\
  sent_all "cover" (action +:+ "_cover") ids st (update_shutters action ids st).
Proof.
  intros Ho.
  rewrite trigger_scenes_each, update_lights_each, update_shutters_each.
  conjuncts; apply call_each_sent_all; try exact Ho; intros i; reflexivity.
Qed.

Lemma X3_actions_open_witness :
  sent_frames (snd (update_shutters "stop" ["cover.a"; "cover.b"; "cover.c"] index_opened))
  = [AuthFrame sample_token;
     service_frame 1 "cover" "stop_cover" "cover.a";
     service_frame 2 "cover" "stop_cover" "cover.b";
     service_frame 3 "cover" "stop_cover" "cover.c"].
Proof.
  destruct (X3_actions_open "stop" ["cover.a"; "cover.b"; "cover.c"] index_opened eq_refl)
    as (_ & _ & (_ & Hs & _)).
  rewrite Hs. reflexivity.
Defined.

(** ** Frames that reconcile nothing *)

Lemma update_no_kind data st :
  reconciled_kind (types st !! Data.id data) = false ->
  update data st = Some (udpateMemory st).
Proof.
  unfold reconciled_kind, reconciled_kinds. cbn [existsb].
  intros H. repeat (apply orb_false_elim in H as [? H]).
  unfold update, reconcile.
  repeat match goal with
         | E : type_is _ _ = false |- _ => rewrite E; clear E
         end.
  reflexivity.
Qed.

(** X4: a frame that is neither [auth_ok], nor [auth_invalid], nor a
    result with [success] true (a failed result, an event, an unknown
    type) leaves the whole state as it is, in both files. *)
Theorem X4_frame_ignored (data : Data.t) (st : State) :
  Data.type data <> "auth_ok" -> Data.type data <> "auth_invalid" ->
  Data.type data <> "result" \/ Data.success data = false ->
  Index.onmessage data st = Some st /\ Main.onmessage data st = Some st.
Proof.
  intros H1%String.eqb_neq H2%String.eqb_neq H3.
  unfold Index.onmessage, Main.onmessage. rewrite H1, H2.
  assert (String.eqb (Data.type data) "result" && Data.success data = false) as ->.
  { destruct H3 as [H3%String.eqb_neq| ->]; [rewrite H3; reflexivity|].
    apply andb_false_r. }
  split; reflexivity.
Qed.

Lemma X4_frame_ignored_witness :
  Index.onmessage
    {| Data.type := "result"; Data.id := 5; Data.success := false;
       Data.message := VUndefined; Data.result := ROther |} index_ready
  = Some index_ready.
Proof.
  refine (proj1 (X4_frame_ignored _ index_ready _ _ _));
    [discriminate | discriminate | right; reflexivity].
Defined.

(** X5: a successful result whose identifier has no entry in the
    pending-request table, or an entry of another kind than the five
    that are reconciled (the answer to a [call_service], for instance),
    is handled whatever its payload is: counter, table, caches, view,
    socket, timers and software version stay, and the instructions and
    the three function schemas are published again from the view as it
    is. *)
Theorem X5_result_of_no_kind (data : Data.t) (st : State) :
  Data.type data = "result" -> Data.success data = true ->
  reconciled_kind (types st !! Data.id data) = false ->
  exists st',
    Index.onmessage data st = Some st' /\
    Main.onmessage data st = Some st' /\
    st' = udpateMemory st /\
    id st' = id st /\ types st' = types st /\
    states st' = states st /\ units st' = units st /\ view st' = view st /\
    socket st' = socket st /\ timers st' = timers st /\
    Extension.softwareVersion (extension st')
      = Extension.softwareVersion (extension st) /\
    Extension.errors (extension st') = Extension.errors (extension st) /\
    Extension.instructions (extension st') = Some (instructions_of (view st)) /\
    Extension.functionSchemas (extension st')
      = [updateLightsFunction; triggerScenesFunction; updateShuttersFunction].
Proof.
  intros Ht Hs Hk.
  destruct (onmessage_result data st Ht Hs) as [-> ->].
  rewrite (update_no_kind data st Hk).
  eexists. conjuncts; reflexivity.
Qed.

Lemma X5_result_of_no_kind_witness :
  exists st',
    Index.onmessage (result_of 99 (RStates sample_states)) index_with_entities
      = Some st' /\
    states st' = states index_with_entities /\
    view st' = view index_with_entities.
Proof.
  destruct (X5_result_of_no_kind (result_of 99 (RStates sample_states))
              index_with_entities eq_refl eq_refl ltac:(vm_compute; reflexivity))
    as (st' & H1 & _ & _ & _ & _ & H2 & _ & H3 & _).
  exists st'. split; [exact H1|]. split; [exact H2 | exact H3].
Defined.

(** ** Handling a result twice *)

Lemma fold_set_lookup {A} (key : A -> string) (val : A -> js_value)
    (l : list A) (i : string) (m : gmap string js_value) :
  fold_left (fun m e => <[key e := val e]> m) l m !! i =
    match List.find (fun e => String.eqb (key e) i) (rev l) with
    | Some e => Some (val e)
    | None => m !! i
    end.
Proof.
  destruct (List.find _ (rev l)) as [e|] eqn:Hf.
  - apply fold_set_last, Hf.
  - apply fold_set_frame. intros e He Hk.
    apply in_rev in He. pose proof (find_none _ _ Hf e He) as Hn. cbn in Hn.
    apply String.eqb_neq in Hn. exact (Hn Hk).
Qed.

Lemma fold_set_twice {A} (key : A -> string) (val : A -> js_value)
    (l : list A) (m : gmap string js_value) :
  fold_left (fun m e => <[key e := val e]> m) l
    (fold_left (fun m e => <[key e := val e]> m) l m)
  = fold_left (fun m e => <[key e := val e]> m) l m.
Proof.
  apply map_eq. intros i. rewrite !fold_set_lookup.
  destruct (List.find _ (rev l)); reflexivity.
Qed.

Lemma update_twice data st st' :
  update data st = Some st' -> update data st' = Some st'.
Proof.
  unfold update. destruct (reconcile data st) as [st1|] eqn:Hr; [|discriminate].
  cbn [fmap option_fmap option_map]. intros [= <-].
  destruct (reconcile_keeps _ _ _ Hr) as (_ & Hty & _).
  unfold reconcile in Hr |- *.
  change (types (udpateMemory st1)) with (types st1). rewrite Hty.
  repeat match type of Hr with
         | context [type_is ?t ?k] =>
             let b := fresh "b" in
             remember (type_is t k) as b; destruct b
         end;
    destruct (Data.result data); cbn in Hr; try discriminate Hr;
    injection Hr as <-; cbn;
    unfold set_all_states, set_all_units; rewrite ?fold_set_twice;
    reflexivity.
Qed.

(** X6: handling the same successful result a second time changes
    nothing: the state after the second time is the state after the
    first, in both files and for every kind of result. *)
Theorem X6_result_twice (data : Data.t) (st st' : State) :
  Data.type data = "result" -> Data.success data = true ->
  Index.onmessage data st = Some st' ->
  Index.onmessage data st' = Some st' /\ Main.onmessage data st' = Some st'.
Proof.
  intros Ht Hs.
  destruct (onmessage_result data st Ht Hs) as [-> _].
  destruct (onmessage_result data st' Ht Hs) as [-> ->].
  intros Hu. split; apply (update_twice _ _ _ Hu).
Qed.

Lemma X6_result_twice_witness :
  Index.onmessage (result_of 2 (RStates sample_states)) index_with_states
  = Some index_with_states.
Proof.
  refine (proj1 (X6_result_twice (result_of 2 (RStates sample_states))
                   index_ready index_with_states eq_refl eq_refl _)).
  vm_compute. reflexivity.
Defined.

(** ** The entity registry listing: the four collections *)

Lemma scenes_of_ids l :
  List.map Scene.id (scenes_of l) =
  List.filter (fun i => startsWith i "scene") (List.map HaEntity.entity_id l).
Proof.
  unfold scenes_of. induction l as [|e l IH]; [reflexivity|].
  cbn. destruct (startsWith (HaEntity.entity_id e) "scene"); cbn; rewrite IH; reflexivity.
Qed.

(** Cases on the comparison of a character of the prefix with the
    character [c] of the identifier. *)
Ltac same_char c :=
  match goal with
  | |- context [Ascii.ascii_dec ?a c] =>
      destruct (Ascii.ascii_dec a c) as [<-|]; [|discriminate]
  end.

(** Two different characters of two prefixes. *)
Ltac other_char :=
  match goal with
  | |- context [Ascii.ascii_dec ?a ?b] =>
      let E := fresh in
      destruct (Ascii.ascii_dec a b) as [E|]; [discriminate E|]
  end.

Lemma starts_light i :
  startsWith i "light" = true ->
  startsWith i "cover" = false /\ startsWith i "sensor" = false /\
  startsWith i "scene" = false.
Proof.
  unfold startsWith. destruct i as [|c i]; [discriminate|].
  cbn [String.prefix]. same_char c. intros _.
  conjuncts; other_char; reflexivity.
Qed.

Lemma starts_cover i :
  startsWith i "cover" = true ->
  startsWith i "sensor" = false /\ startsWith i "scene" = false.
Proof.
  unfold startsWith. destruct i as [|c i]; [discriminate|].
  cbn [String.prefix]. same_char c. intros _.
  conjuncts; other_char; reflexivity.
Qed.

Lemma starts_sensor i :
  startsWith i "sensor" = true -> startsWith i "scene" = false.
Proof.
  unfold startsWith. destruct i as [|c i]; [discriminate|].
  cbn [String.prefix]. same_char c.
  destruct i as [|d i]; [discriminate|].
  cbn [String.prefix]. same_char d. intros _.
  other_char. reflexivity.
Qed.

Lemma in_filter_starts p i l :
  In i (List.filter (fun i => startsWith i p) l) <-> In i l /\ startsWith i p = true.
Proof. apply (filter_In (fun i => startsWith i p)). Qed.

Lemma listing_view data st l :
  Data.type data = "result" -> Data.success data = true ->
  types st !! Data.id data = Some "config/entity_registry/list" ->
  Data.result data = REntities l ->
  Index.onmessage data st = Some (udpateMemory (set_view (set_entities st l) st)) /\
  Main.onmessage data st = Some (udpateMemory (set_view (set_entities st l) st)).
Proof.
  intros Ht Hs Hk Hr.
  destruct (onmessage_result data st Ht Hs) as [-> ->].
  unfold update. rewrite (reconcile_entities data st l Hk Hr). split; reflexivity.
Qed.

(** X7: when the result of an entity registry listing is handled (by
    either file), the identifiers of [shutters] are the identifiers of
    the payload that start with "cover" and those of [scenes] the ones
    that start with "scene", in the order of the payload; every shutter
    carries the state that [states] holds for it; [floors] and [rooms]
    stay.  An identifier that the payload does not list is in none of
    [lights], [shutters], [sensors] and [scenes] afterwards, whatever
    the view held before. *)
Theorem X7_shutters_scenes_of_registry
    (data : Data.t) (st : State) (l : list HaEntity.t) :
  Data.type data = "result" -> Data.success data = true ->
  types st !! Data.id data = Some "config/entity_registry/list" ->
  Data.result data = REntities l ->
  exists st',
    Index.onmessage data st = Some st' /\
    Main.onmessage data st = Some st' /\
    shutter_ids (view st') =
      List.filter (fun i => startsWith i "cover") (List.map HaEntity.entity_id l) /\
    scene_ids (view st') =
      List.filter (fun i => startsWith i "scene") (List.map HaEntity.entity_id l) /\
    Forall (fun d => Device.state d = map_get (states st) (Device.id d))
           (View.shutters (view st')) /\
    View.floors (view st') = View.floors (view st) /\
    View.rooms (view st') = View.rooms (view st) /\
    (forall i, ~ In i (List.map HaEntity.entity_id l) ->
       ~ In i (light_ids (view st')) /\ ~ In i (shutter_ids (view st')) /\
       ~ In i (sensor_ids (view st')) /\ ~ In i (scene_ids (view st'))).
Proof.
  intros Ht Hs Hk Hr.
  destruct (listing_view data st l Ht Hs Hk Hr) as [-> ->].
  eexists. split; [reflexivity|]. split; [reflexivity|].
  unfold shutter_ids, scene_ids, light_ids, sensor_ids. cbn.
  split; [apply devices_of_ids|]. split; [apply scenes_of_ids|].
  split; [apply devices_of_state|]. split; [reflexivity|]. split; [reflexivity|].
  intros i Hi. rewrite !devices_of_ids, scenes_of_ids.
  conjuncts; try (intros H%in_filter_starts; tauto).
  intros H. apply in_map_iff in H as (s & Hs' & Hin).
  assert (Hex : exists s, In s (sensors_of (states st) (units st) l) /\ Sensor.id s = i)
    by (exists s; auto).
  apply sensors_of_spec in Hex. tauto.
Qed.

Lemma X7_shutters_scenes_of_registry_witness :
  exists st',
    Index.onmessage (result_of 5 (REntities [light_kitchen])) index_with_entities
      = Some st' /\
    ~ In "sensor.outside" (sensor_ids (view st')).
Proof.
  destruct (X7_shutters_scenes_of_registry (result_of 5 (REntities [light_kitchen]))
              index_with_entities [light_kitchen] eq_refl eq_refl
              ltac:(vm_compute; reflexivity) eq_refl)
    as (st' & H1 & _ & _ & _ & _ & _ & _ & Habs).
  exists st'. split; [exact H1|].
  apply (Habs "sensor.outside"). cbn. intros [H|[]]. discriminate H.
Defined.

(** X8: after an entity registry listing no identifier is in two of the
    four collections [lights], [shutters], [sensors] and [scenes]. *)
Theorem X8_collections_disjoint
    (data : Data.t) (st : State) (l : list HaEntity.t) :
  Data.type data = "result" -> Data.success data = true ->
  types st !! Data.id data = Some "config/entity_registry/list" ->
  Data.result data = REntities l ->
  exists st',
    Index.onmessage data st = Some st' /\
    Main.onmessage data st = Some st' /\
    forall i,
      (In i (light_ids (view st')) ->
       ~ In i (shutter_ids (view st')) /\ ~ In i (sensor_ids (view st')) /\
       ~ In i (scene_ids (view st'))) /\
      (In i (shutter_ids (view st')) ->
       ~ In i (sensor_ids (view st')) /\ ~ In i (scene_ids (view st'))) /\
      (In i (sensor_ids (view st')) -> ~ In i (scene_ids (view st'))).
Proof.
  intros Ht Hs Hk Hr.
  destruct (listing_view data st l Ht Hs Hk Hr) as [-> ->].
  eexists. split; [reflexivity|]. split; [reflexivity|].
  unfold shutter_ids, scene_ids, light_ids, sensor_ids. cbn.
  intros i. rewrite !devices_of_ids, scenes_of_ids.
  assert (Hsens : In i (List.map Sensor.id (sensors_of (states st) (units st) l)) ->
                  startsWith i "sensor" = true).
  { intros H. apply in_map_iff in H as (s & Hs' & Hin).
    assert (Hex : exists s, In s (sensors_of (states st) (units st) l) /\ Sensor.id s = i)
      by (exists s; auto).
    apply sensors_of_spec in Hex. tauto. }
  rewrite !in_filter_starts. conjuncts.
  - intros [_ H]. destruct (starts_light i H) as (H1 & H2 & H3).
    conjuncts; [intros [_ E]|intros E%Hsens|intros [_ E]]; congruence.
  - intros [_ H]. destruct (starts_cover i H) as (H2 & H3).
    conjuncts; [intros E%Hsens|intros [_ E]]; congruence.
  - intros H%Hsens. pose proof (starts_sensor i H). intros [_ E]. congruence.
Qed.

Lemma X8_collections_disjoint_witness :
  exists st',
    Index.onmessage (result_of 5 (REntities sample_entities)) index_with_states
      = Some st' /\
    (In "light.kitchen" (light_ids (view st')) ->
     ~ In "light.kitchen" (sensor_ids (view st'))).
Proof.
  destruct (X8_collections_disjoint (result_of 5 (REntities sample_entities))
              index_with_states sample_entities eq_refl eq_refl
              ltac:(vm_compute; reflexivity) eq_refl)
    as (st' & H1 & _ & Hd).
  exists st'. split; [exact H1|].
  intros Hin. apply (proj1 (Hd "light.kitchen")), Hin.
Defined.

Lemma devices_of_made_from prefix states l :
  Forall (fun d => exists e, In e l /\
            made_from e (Device.id d) (Device.name d) (Device.area_id d))
         (devices_of prefix states l).
Proof.
  unfold devices_of. apply Forall_forall. intros d Hd.
  apply list_elem_of_In, in_map_iff in Hd as (e & <- & He).
  apply filter_In in He as [He _]. exists e. split; [exact He|].
  repeat split.
Qed.

Lemma sensors_of_made_from states units l :
  Forall (fun s => exists e, In e l /\
            made_from e (Sensor.id s) (Sensor.name s) (Sensor.area_id s))
         (sensors_of states units l).
Proof.
  unfold sensors_of. apply Forall_forall. intros d Hd.
  apply list_elem_of_In, in_map_iff in Hd as (e & <- & He).
  apply filter_In in He as [He _]. exists e. split; [exact He|].
  repeat split.
Qed.

Lemma scenes_of_made_from l :
  Forall (fun s => exists e, In e l /\
            made_from e (Scene.id s) (Scene.name s) (Scene.area_id s))
         (scenes_of l).
Proof.
  unfold scenes_of. apply Forall_forall. intros d Hd.
  apply list_elem_of_In, in_map_iff in Hd as (e & <- & He).
  apply filter_In in He as [He _]. exists e. split; [exact He|].
  repeat split.
Qed.

(** X9: after an entity registry listing every light, shutter, sensor
    and scene of the view comes from an entity of the payload: it has
    the identifier and the area of that entity, and for name the name of
    the entity when that is truthy, the original name of the entity when
    the name is null, absent or the empty string. *)
Theorem X9_names_of_registry
    (data : Data.t) (st : State) (l : list HaEntity.t) :
  Data.type data = "result" -> Data.success data = true ->
  types st !! Data.id data = Some "config/entity_registry/list" ->
  Data.result data = REntities l ->
  exists st',
    Index.onmessage data st = Some st' /\
    Main.onmessage data st = Some st' /\
    Forall (fun d => exists e, In e l /\
              made_from e (Device.id d) (Device.name d) (Device.area_id d))
           (View.lights (view st') ++ View.shutters (view st')) /\
    Forall (fun s => exists e, In e l /\
              made_from e (Sensor.id s) (Sensor.name s) (Sensor.area_id s))
           (View.sensors (view st')) /\
    Forall (fun s => exists e, In e l /\
              made_from e (Scene.id s) (Scene.name s) (Scene.area_id s))
           (View.scenes (view st')).
Proof.
  intros Ht Hs Hk Hr.
  destruct (listing_view data st l Ht Hs Hk Hr) as [-> ->].
  eexists. split; [reflexivity|]. split; [reflexivity|]. cbn.
  split; [apply Forall_app; split; apply devices_of_made_from|].
  split; [apply sensors_of_made_from | apply scenes_of_made_from].
Qed.

Lemma X9_names_of_registry_witness :
  exists st',
    Index.onmessage (result_of 5 (REntities sample_entities)) index_with_states
      = Some st' /\
    List.map Device.name (View.lights (view st')) = [VStr "Kitchen"] /\
    List.map Sensor.name (View.sensors (view st')) = [VStr "Outside"].
Proof.
  destruct (X9_names_of_registry (result_of 5 (REntities sample_entities))
              index_with_states sample_entities eq_refl eq_refl
              ltac:(vm_compute; reflexivity) eq_refl)
    as (st' & H1 & _).
  exists st'. split; [exact H1|].
  vm_compute in H1. injection H1 as <-. split; vm_compute; reflexivity.
Defined.

(** ** Snapshot and listing together *)

Lemma snapshot_state data st l :
  Data.type data = "result" -> Data.success data = true ->
  types st !! Data.id data = Some "get_states" ->
  Data.result data = RStates l ->
  Index.onmessage data st
    = Some (udpateMemory
              (set_units (set_all_units l (units st))
                 (set_states (set_all_states l (states st)) st))) /\
  Main.onmessage data st
    = Some (udpateMemory
              (set_units (set_all_units l (units st))
                 (set_states (set_all_states l (states st)) st))).
Proof.
  intros Ht Hs Hk Hr.
  destruct (onmessage_result data st Ht Hs) as [-> ->].
  unfold update. rewrite (reconcile_states data st l Hk Hr). split; reflexivity.
Qed.

(** X10: a result of [get_states] changes the caches only: the six
    collections of the view stay as they are, so that the lights and
    shutters of the view keep the state they were given by the last
    entity registry listing, and the instructions published are again
    those of that view. *)
Theorem X10_snapshot_keeps_view (data : Data.t) (st : State) (l : list HaState.t) :
  Data.type data = "result" -> Data.success data = true ->
  types st !! Data.id data = Some "get_states" ->
  Data.result data = RStates l ->
  exists st',
    Index.onmessage data st = Some st' /\
    Main.onmessage data st = Some st' /\
    view st' = view st /\
    Extension.instructions (extension st') = Some (instructions_of (view st)) /\
    Extension.softwareVersion (extension st')
      = Extension.softwareVersion (extension st) /\
    id st' = id st /\ types st' = types st /\ socket st' = socket st.
Proof.
  intros Ht Hs Hk Hr.
  destruct (snapshot_state data st l Ht Hs Hk Hr) as [-> ->].
  eexists. conjuncts; reflexivity.
Qed.

Lemma X10_snapshot_keeps_view_witness :
  exists st',
    Index.onmessage
      (result_of 2 (RStates [ {| HaState.entity_id := "light.kitchen";
                                 HaState.state := VStr "off";
                                 HaState.attributes :=
                                   {| Attributes.unit_of_measurement := VUndefined |} |} ]))
      index_with_entities = Some st' /\
    states st' !! "light.kitchen" = Some (VStr "off") /\
    List.map Device.state (View.lights (view st')) = [VStr "on"].
Proof.
  destruct (X10_snapshot_keeps_view
              (result_of 2 (RStates [ {| HaState.entity_id := "light.kitchen";
                                         HaState.state := VStr "off";
                                         HaState.attributes :=
                                           {| Attributes.unit_of_measurement := VUndefined |} |} ]))
              index_with_entities _ eq_refl eq_refl
              ltac:(vm_compute; reflexivity) eq_refl)
    as (st' & H1 & _ & Hv & _).
  exists st'. split; [exact H1|]. rewrite Hv.
  vm_compute in H1. injection H1 as <-. split; vm_compute; reflexivity.
Defined.

(** X11: when a result of [get_states] and then the result of an entity
    registry listing are handled, every light and shutter of the view
    that the snapshot named carries the state of the last snapshot
    entity of its name, and every other one the state that [states]
    held before the snapshot. *)
Theorem X11_snapshot_then_listing
    (d1 d2 : Data.t) (st : State) (ls : list HaState.t) (le : list HaEntity.t) :
  Data.type d1 = "result" -> Data.success d1 = true ->
  types st !! Data.id d1 = Some "get_states" ->
  Data.result d1 = RStates ls ->
  Data.type d2 = "result" -> Data.success d2 = true ->
  types st !! Data.id d2 = Some "config/entity_registry/list" ->
  Data.result d2 = REntities le ->
  exists st1 st2,
    Index.onmessage d1 st = Some st1 /\ Index.onmessage d2 st1 = Some st2 /\
    Main.onmessage d1 st = Some st1 /\ Main.onmessage d2 st1 = Some st2 /\
    Forall (fun d =>
              match last_of (Device.id d) ls with
              | Some e => Device.state d = HaState.state e
              | None => Device.state d = map_get (states st) (Device.id d)
              end)
           (View.lights (view st2) ++ View.shutters (view st2)).
Proof.
  intros Ht1 Hs1 Hk1 Hr1 Ht2 Hs2 Hk2 Hr2.
  destruct (snapshot_state d1 st ls Ht1 Hs1 Hk1 Hr1) as [-> ->].
  eexists. 
  match goal with
  | |- exists st2, Some ?s = _ /\ _ =>
      destruct (listing_view d2 s le Ht2 Hs2 Hk2 Hr2) as [-> ->]
  end.
  eexists. conjuncts; try reflexivity. cbn.
  assert (Hstate : forall p,
    Forall (fun d =>
              match last_of (Device.id d) ls with
              | Some e => Device.state d = HaState.state e
              | None => Device.state d = map_get (states st) (Device.id d)
              end)
           (devices_of p (set_all_states ls (states st)) le)).
  { intros p. eapply Forall_impl; [apply devices_of_state|].
    intros d ->. unfold map_get, set_all_states, last_of.
    rewrite fold_set_lookup. destruct (List.find _ (rev ls)); reflexivity. }
  apply Forall_app. split; apply Hstate.
Qed.

Lemma X11_snapshot_then_listing_witness :
  exists st1 st2,
    Index.onmessage (result_of 2 (RStates sample_states)) index_ready = Some st1 /\
    Index.onmessage (result_of 5 (REntities sample_entities)) st1 = Some st2 /\
    List.map Device.state (View.lights (view st2)) = [VStr "on"].
Proof.
  destruct (X11_snapshot_then_listing
              (result_of 2 (RStates sample_states))
              (result_of 5 (REntities sample_entities))
              index_ready sample_states sample_entities
              eq_refl eq_refl ltac:(vm_compute; reflexivity) eq_refl
              eq_refl eq_refl ltac:(vm_compute; reflexivity) eq_refl)
    as (st1 & st2 & H1 & H2 & _).
  exists st1, st2. split; [exact H1|]. split; [exact H2|].
  vm_compute in H1. injection H1 as <-.
  vm_compute in H2. injection H2 as <-. vm_compute. reflexivity.
Defined.

(** ** The other results *)

(** X12: the result of a floor registry listing replaces [floors] by
    one entry per element of the payload, in order, that of an area
    registry listing replaces [rooms] in the same way, and that of
    [get_config] sets the software version of the host; each leaves the
    other collections of the view and the two caches as they are. *)
Theorem X12_registries_replace (data : Data.t) (st : State) :
  Data.type data = "result" -> Data.success data = true ->
  (forall l,
     types st !! Data.id data = Some "config/floor_registry/list" ->
     Data.result data = RFloors l ->
     exists st',
       Index.onmessage data st = Some st' /\ Main.onmessage data st = Some st' /\
       View.floors (view st') = floors_of l /\
       List.map Floor.id (View.floors (view st')) = List.map HaFloor.floor_id l /\
       View.rooms (view st') = View.rooms (view st) /\
       View.lights (view st') = View.lights (view st) /\
       View.shutters (view st') = View.shutters (view st) /\
       View.sensors (view st') = View.sensors (view st) /\
       View.scenes (view st') = View.scenes (view st) /\
       states st' = states st /\ units st' = units st) /\
  (forall l,
     types st !! Data.id data = Some "config/area_registry/list" ->
     Data.result data = RAreas l ->
     exists st',
       Index.onmessage data st = Some st' /\ Main.onmessage data st = Some st' /\
       View.rooms (view st') = rooms_of l /\
       List.map Room.id (View.rooms (view st')) = List.map HaArea.area_id l /\
       List.map Room.floor_id (View.rooms (view st')) = List.map HaArea.floor_id l /\
       View.floors (view st') = View.floors (view st) /\
       View.lights (view st') = View.lights (view st) /\
       View.shutters (view st') = View.shutters (view st) /\
       View.sensors (view st') = View.sensors (view st) /\
       View.scenes (view st') = View.scenes (view st) /\
       states st' = states st /\ units st' = units st) /\
  (forall version,
     types st !! Data.id data = Some "get_config" ->
     Data.result data = RConfig version ->
     exists st',
       Index.onmessage data st = Some st' /\ Main.onmessage data st = Some st' /\
       Extension.softwareVersion (extension st') = version /\
       view st' = view st /\ states st' = states st /\ units st' = units st).
Proof.
  intros Ht Hs.
  destruct (onmessage_result data st Ht Hs) as [-> ->].
  unfold update, reconcile. conjuncts.
  - intros l -> ->. eexists. split; [reflexivity|]. split; [reflexivity|].
    cbn. conjuncts; try reflexivity.
    unfold floors_of. rewrite List.map_map. reflexivity.
  - intros l -> ->. eexists. split; [reflexivity|]. split; [reflexivity|].
    cbn. conjuncts; try reflexivity;
      unfold rooms_of; rewrite List.map_map; reflexivity.
  - intros v -> ->. eexists. split; [reflexivity|]. split; [reflexivity|].
    cbn. conjuncts; reflexivity.
Qed.

Lemma X12_registries_replace_witness :
  exists st',
    Index.onmessage (result_of 3 (RFloors [ground_floor])) index_with_entities
      = Some st' /\
    List.map Floor.id (View.floors (view st')) = [VStr "ground"] /\
    View.lights (view st') = View.lights (view index_with_entities).
Proof.
  destruct (X12_registries_replace (result_of 3 (RFloors [ground_floor]))
              index_with_entities eq_refl eq_refl) as (Hf & _ & _).
  destruct (Hf [ground_floor] ltac:(vm_compute; reflexivity) eq_refl)
    as (st' & H1 & _ & _ & H2 & _ & H3 & _).
  exists st'. split; [exact H1|]. split; [exact H2 | exact H3].
Defined.

(** ** What a connection does to its socket *)























(** A run of [index.mjs] with an error: the command that follows the
    error is refused, and the socket holds the [auth] frame and the five
    requests of [refresh]. *)
Example index_socket_after_error :
  ((fun st => (socket_shape st, sent_frames st)) <$>
     Index.run [Receive auth_ok; Failure "read ECONNRESET";
                UpdateLights "on" ["light.kitchen"]; Tick]
               (Index.open (Index.start sample_url sample_token None)))
  = Some (Some ("ws://home-assistant:8123/api/websocket", CLOSING),
          [AuthFrame sample_token;
           RequestFrame "get_config" 1 None;
           RequestFrame "get_states" 2 None;
           RequestFrame "config/floor_registry/list" 3 None;
           RequestFrame "config/area_registry/list" 4 None;
           RequestFrame "config/entity_registry/list" 5 None]).
Proof. vm_compute. reflexivity. Qed.

(** ** The units cache *)

Lemma set_all_units_defined l (m : gmap string js_value) :
  (forall i v, m !! i = Some v -> v <> VUndefined) ->
  forall i v, set_all_units l m !! i = Some v -> v <> VUndefined.
Proof.
  intros Hm i v. unfold set_all_units. rewrite fold_set_lookup.
  destruct (List.find _ (rev (List.filter has_unit l))) as [e|] eqn:Hf; [|apply Hm].
  intros [= <-]. apply find_some in Hf as [He _].
  apply in_rev, filter_In in He as [_ Hu]. unfold has_unit in Hu.
  apply negb_true_iff, bool_decide_eq_false in Hu. exact Hu.
Qed.

Lemma update_units_defined data st st' :
  update data st = Some st' -> units_defined st -> units_defined st'.
Proof.
  unfold update. destruct (reconcile data st) as [st1|] eqn:Hr; [|discriminate].
  cbn [fmap option_fmap option_map]. intros [= <-] Hd. unfold units_defined.
  change (units (udpateMemory st1)) with (units st1).
  unfold reconcile in Hr.
  repeat match type of Hr with
         | context [type_is ?t ?k] => destruct (type_is t k)
         end;
    destruct (Data.result data); cbn in Hr; try discriminate Hr;
    injection Hr as <-; cbn; try exact Hd;
    apply set_all_units_defined, Hd.
Qed.

Lemma index_refresh_requests_only st : requests_only st (Index.refresh st).
Proof.
  unfold Index.refresh.
  pose proof (call_requests_only "get_config" None st) as H1.
  destruct (call "get_config" None st) as [? s1]. cbn [snd] in H1.
  pose proof (call_requests_only "get_states" None s1) as H2.
  destruct (call "get_states" None s1) as [? s2]. cbn [snd] in H2.
  pose proof (call_requests_only "config/floor_registry/list" None s2) as H3.
  destruct (call "config/floor_registry/list" None s2) as [? s3]. cbn [snd] in H3.
  pose proof (call_requests_only "config/area_registry/list" None s3) as H4.
  destruct (call "config/area_registry/list" None s3) as [? s4]. cbn [snd] in H4.
  pose proof (call_requests_only "config/entity_registry/list" None s4) as H5.
  destruct (call "config/entity_registry/list" None s4) as [? s5]. cbn [snd] in H5.
  eauto using requests_only_trans.
Qed.

Lemma index_onmessage_units_defined data st st' :
  Index.onmessage data st = Some st' -> units_defined st -> units_defined st'.
Proof.
  unfold Index.onmessage. intros Hm Hd.
  set (st1 := if String.eqb (Data.type data) "auth_ok" then _ else st) in Hm.
  assert (H1 : units st1 = units st).
  { subst st1. destruct (String.eqb (Data.type data) "auth_ok"); [|reflexivity].
    unfold setInterval. cbn.
    apply (index_refresh_requests_only
             (set_extension (Extension.clearErrors (extension st)) st)). }
  clearbody st1.
  set (st2 := if String.eqb (Data.type data) "auth_invalid" then _ else st1) in Hm.
  assert (H2 : units st2 = units st).
  { subst st2. destruct (String.eqb (Data.type data) "auth_invalid"); exact H1. }
  clearbody st2.
  assert (Hd2 : units_defined st2) by (unfold units_defined; rewrite H2; exact Hd).
  destruct (String.eqb (Data.type data) "result" && Data.success data).
  - apply (update_units_defined _ _ _ Hm Hd2).
  - injection Hm as <-. exact Hd2.
Qed.

Lemma main_onmessage_units_defined data st st' :
  Main.onmessage data st = Some st' -> units_defined st -> units_defined st'.
Proof.
  unfold Main.onmessage. intros Hm Hd.
  set (st1 := if String.eqb (Data.type data) "auth_ok" then _ else st) in Hm.
  assert (H1 : units st1 = units st).
  { subst st1. destruct (String.eqb (Data.type data) "auth_ok"); [|reflexivity].
    rewrite main_refresh_calls. cbn.
    apply (index_refresh_requests_only
             (clearTimer (refreshTimeout (console_log "Authentication successful" st))
                (console_log "Authentication successful" st))). }
  clearbody st1.
  set (st2 := if String.eqb (Data.type data) "auth_invalid" then _ else st1) in Hm.
  assert (H2 : units st2 = units st).
  { subst st2. destruct (String.eqb (Data.type data) "auth_invalid"); exact H1. }
  clearbody st2.
  assert (Hd2 : units_defined st2) by (unfold units_defined; rewrite H2; exact Hd).
  destruct (String.eqb (Data.type data) "result" && Data.success data).
  - apply (update_units_defined _ _ _ Hm Hd2).
  - injection Hm as <-. exact Hd2.
Qed.

Lemma act_units o st st' : act o st = Some st' -> units st' = units st.
Proof.
  destruct o; cbn; try discriminate; intros [= <-];
    rewrite ?trigger_scenes_each, ?update_lights_each, ?update_shutters_each;
    apply call_each_requests_only.
Qed.

Lemma index_run_units_defined ops : forall st st',
  Index.run ops st = Some st' -> units_defined st -> units_defined st'.
Proof.
  induction ops as [|o ops IH]; intros st st'; cbn.
  - intros [= <-]. auto.
  - destruct (Index.step o st) as [st1|] eqn:Hs; [|discriminate]. cbn.
    intros Hr Hd. apply (IH st1 st' Hr).
    destruct o; cbn [Index.step] in Hs;
      try (unfold units_defined; rewrite (act_units _ _ _ Hs); exact Hd).
    + apply (index_onmessage_units_defined _ _ _ Hs Hd).
    + injection Hs as <-. unfold units_defined.
      rewrite (proj1 (index_refresh_requests_only st)). exact Hd.
    + injection Hs as <-. exact Hd.
Qed.

Lemma main_run_units_defined ops : forall st st',
  Main.run ops st = Some st' -> units_defined st -> units_defined st'.
Proof.
  induction ops as [|o ops IH]; intros st st'; cbn.
  - intros [= <-]. auto.
  - destruct (Main.step o st) as [st1|] eqn:Hs; [|discriminate]. cbn.
    intros Hr Hd. apply (IH st1 st' Hr).
    destruct o; cbn [Main.step] in Hs;
      try (unfold units_defined; rewrite (act_units _ _ _ Hs); exact Hd).
    + apply (main_onmessage_units_defined _ _ _ Hs Hd).
    + injection Hs as <-. unfold units_defined.
      rewrite main_refresh_calls. cbn.
      rewrite (proj1 (index_refresh_requests_only _)). exact Hd.
    + injection Hs as <-. unfold Main.onerror.
      destruct (Extension.isEnabled _); exact Hd.
Qed.

(** An invariant of a script over its connections: it holds when the
    first socket has opened, every sequence of steps keeps it, and so
    does a reconnection. *)
Lemma connections_invariant (run : list op -> State -> option State)
    (again : State -> State) (P : State -> Prop) :
  (forall ops st st', run ops st = Some st' -> P st -> P st') ->
  (forall st, P st -> P (again st)) ->
  forall later o,
    (forall s, o = Some s -> P s) ->
    forall st',
      fold_left (fun st ops => st ≫= fun st => run ops (again st)) later o = Some st' ->
      P st'.
Proof.
  intros Hrun Hre later.
  induction later as [|ops later IH]; intros o Ho st' Hr.
  - apply Ho, Hr.
  - cbn [fold_left] in Hr. apply IH in Hr; [exact Hr|].
    intros s Hs. destruct o as [s0|]; [|discriminate Hs].
    apply (Hrun ops (again s0) s Hs), Hre, Ho. reflexivity.
Qed.

Lemma index_connections_invariant (P : State -> Prop) url token first later :
  P (Index.open (Index.start url token None)) ->
  (forall ops st st', Index.run ops st = Some st' -> P st -> P st') ->
  (forall st, P st -> P (Index.open (Index.reconnect st))) ->
  forall st', index_connections url token first later = Some st' -> P st'.
Proof.
  intros H0 Hrun Hre.
  apply (connections_invariant Index.run
           (fun st => Index.open (Index.reconnect st)) P Hrun Hre later).
  intros s Hs. apply (Hrun _ _ _ Hs H0).
Qed.

Lemma main_connections_invariant (P : State -> Prop) url token first later :
  P (Main.open (Main.connect (Main.start url token))) ->
  (forall ops st st', Main.run ops st = Some st' -> P st -> P st') ->
  (forall st, P st -> P (Main.open (Main.reconnect st))) ->
  forall st', main_connections url token first later = Some st' -> P st'.
Proof.
  intros H0 Hrun Hre.
  apply (connections_invariant Main.run
           (fun st => Main.open (Main.reconnect st)) P Hrun Hre later).
  intros s Hs. apply (Hrun _ _ _ Hs H0).
Qed.

(** X14: [units] never holds an undefined value.  From the empty cache
    of a freshly loaded script, over the first connection and any number
    of reconnections, whatever frames arrive, every value of [units] is
    defined; so [units.get] is undefined for an identifier exactly when
    [units] has no entry for it. *)
Theorem X14_units_never_undefined
    (url token : string) (first : list op) (later : list (list op)) :
  (forall st',
     index_connections url token first later = Some st' ->
     units_defined st' /\
     forall i, map_get (units st') i = VUndefined <-> units st' !! i = None) /\
  (forall st',
     main_connections url token first later = Some st' ->
     units_defined st' /\
     forall i, map_get (units st') i = VUndefined <-> units st' !! i = None).
Proof.
  assert (Hget : forall st, units_defined st ->
            forall i, map_get (units st) i = VUndefined <-> units st !! i = None).
  { intros st Hd i. unfold map_get. destruct (units st !! i) as [v|] eqn:Hv; cbn.
    - split; [intros ->; exfalso; apply (Hd i _ Hv); reflexivity | discriminate].
    - split; reflexivity. }
  assert (H0 : forall i (v : js_value),
            (∅ : gmap string js_value) !! i = Some v -> v <> VUndefined).
  { intros i v. rewrite lookup_empty. discriminate. }
  split; intros st' Hr; (enough (units_defined st') by auto).
  - revert st' Hr. apply index_connections_invariant.
    + exact H0.
    + apply index_run_units_defined.
    + intros st Hd. exact Hd.
  - revert st' Hr. apply main_connections_invariant.
    + exact H0.
    + apply main_run_units_defined.
    + intros st Hd. exact Hd.
Qed.

(** ** The refresh timer of [src/main.mjs] *)

Lemma filter_none {A} (f : A -> bool) (l : list A) :
  (forall x, In x l -> f x = false) -> List.filter f l = [].
Proof.
  induction l as [|x l IH]; intros H; [reflexivity|].
  cbn. rewrite (H x (or_introl eq_refl)). apply IH.
  intros y Hy. apply H. right. exact Hy.
Qed.

Lemma filter_filter_length {A} (f g : A -> bool) (l : list A) :
  (length (List.filter f (List.filter g l)) <= length (List.filter f l))%nat.
Proof.
  induction l as [|x l IH]; [reflexivity|].
  cbn. destruct (g x), (f x) eqn:Hf; cbn; rewrite ?Hf; cbn; lia.
Qed.

Lemma one_refresh_ext st st' :
  timers st' = timers st -> refreshTimeout st' = refreshTimeout st ->
  one_refresh st -> one_refresh st'.
Proof.
  unfold one_refresh, refresh_pending. intros -> ->. auto.
Qed.

(** Clearing a timer keeps the invariant. *)
Lemma one_refresh_clear h st :
  one_refresh st -> one_refresh (clearTimer h st).
Proof.
  unfold one_refresh, refresh_pending, clearTimer. cbn.
  intros [Hlen Hslot]. destruct h as [n|]; cbn; [|auto].
  split.
  - etransitivity; [apply filter_filter_length | exact Hlen].
  - intros tm Hin. apply Hslot.
    apply filter_In in Hin as [Hin Hr]. apply filter_In in Hin as [Hin _].
    apply filter_In. auto.
Qed.

(** Scheduling [connect] keeps the invariant. *)
Lemma one_refresh_connect_timer delay st :
  one_refresh st -> one_refresh (snd (setTimeout CbConnect delay st)).
Proof.
  unfold one_refresh, refresh_pending, setTimeout. cbn.
  rewrite List.filter_app. cbn. rewrite app_nil_r. auto.
Qed.

Lemma main_refresh_one_refresh st :
  one_refresh st ->
  one_refresh (Main.refresh st) /\ length (refresh_pending (Main.refresh st)) = 1%nat.
Proof.
  intros [_ Hslot]. rewrite main_refresh_calls. cbn zeta.
  destruct (index_refresh_requests_only (clearTimer (refreshTimeout st) st))
    as (_ & _ & _ & _ & Htm & _).
  unfold one_refresh, refresh_pending. cbn. rewrite Htm. cbn.
  rewrite List.filter_app. cbn.
  assert (Hnone : List.filter is_refresh
                    (Timers.pending (Timers.clear (refreshTimeout st) (timers st))) = []).
  { apply filter_none. intros tm Hin.
    destruct (is_refresh tm) eqn:Hr; [|reflexivity]. exfalso.
    destruct (refreshTimeout st) as [h|] eqn:Hh; cbn in Hin.
    - apply filter_In in Hin as [Hin Hne].
      assert (Hs : Some h = Some (Timer.handle tm))
        by (apply Hslot, filter_In; auto).
      injection Hs as ->. rewrite Nat.eqb_refl in Hne. discriminate.
    - assert (Hs : None = Some (Timer.handle tm))
        by (apply Hslot, filter_In; auto).
      discriminate. }
  rewrite Hnone. cbn. split; [split; [lia|]|reflexivity].
  intros tm [<-|[]]. cbn. destruct (refreshTimeout st); reflexivity.
Qed.

Lemma reconcile_refreshTimeout data st st' :
  reconcile data st = Some st' -> refreshTimeout st' = refreshTimeout st.
Proof.
  unfold reconcile. intros H.
  repeat match type of H with
         | context [type_is ?t ?k] => destruct (type_is t k)
         end;
    destruct (Data.result data); cbn in H; try discriminate;
    injection H as <-; reflexivity.
Qed.

Lemma update_one_refresh data st st' :
  update data st = Some st' -> one_refresh st -> one_refresh st'.
Proof.
  intros Hu. pose proof (update_keeps _ _ _ Hu) as (_ & _ & _ & Htm).
  apply update_inv in Hu as (st1 & Hr & ->).
  apply one_refresh_ext; [exact Htm|].
  apply (reconcile_refreshTimeout _ _ _ Hr).
Qed.

Lemma main_onmessage_one_refresh data st st' :
  Main.onmessage data st = Some st' -> one_refresh st -> one_refresh st'.
Proof.
  unfold Main.onmessage. intros Hm Hd.
  set (st1 := if String.eqb (Data.type data) "auth_ok" then _ else st) in Hm.
  assert (H1 : one_refresh st1).
  { subst st1. destruct (String.eqb (Data.type data) "auth_ok"); [|exact Hd].
    apply main_refresh_one_refresh. revert Hd. apply one_refresh_ext; reflexivity. }
  clearbody st1.
  set (st2 := if String.eqb (Data.type data) "auth_invalid" then _ else st1) in Hm.
  assert (H2 : one_refresh st2).
  { subst st2. destruct (String.eqb (Data.type data) "auth_invalid"); [|exact H1].
    apply (one_refresh_connect_timer 5000) in H1. revert H1.
    unfold setTimeout. cbn. apply one_refresh_ext; reflexivity. }
  clearbody st2.
  destruct (String.eqb (Data.type data) "result" && Data.success data).
  - apply (update_one_refresh _ _ _ Hm H2).
  - injection Hm as <-. exact H2.
Qed.

Lemma main_run_one_refresh ops : forall st st',
  Main.run ops st = Some st' -> one_refresh st -> one_refresh st'.
Proof.
  induction ops as [|o ops IH]; intros st st'; cbn.
  - intros [= <-]. auto.
  - destruct (Main.step o st) as [st1|] eqn:Hs; [|discriminate]. cbn.
    intros Hr Hd. apply (IH st1 st' Hr).
    destruct o; cbn [Main.step act] in Hs;
      try (injection Hs as <-;
           rewrite ?trigger_scenes_each, ?update_lights_each, ?update_shutters_each;
           revert Hd; apply one_refresh_ext; apply call_each_requests_only).
    + apply (main_onmessage_one_refresh _ _ _ Hs Hd).
    + injection Hs as <-. apply main_refresh_one_refresh, Hd.
    + injection Hs as <-. unfold Main.onerror.
      destruct (Extension.isEnabled _); [exact Hd|].
      revert Hd. apply one_refresh_ext; reflexivity.
Qed.

Lemma main_reconnect_one_refresh st :
  one_refresh st -> one_refresh (Main.open (Main.reconnect st)).
Proof.
  intros Hd. unfold Main.open, Main.reconnect, Main.onopen, Main.connect, Main.onclose.
  apply (one_refresh_ext
           (clearTimer (Some (Timers.next (timers st)))
              (snd (setTimeout CbConnect 5000 st)))); [reflexivity..|].
  apply one_refresh_clear, one_refresh_connect_timer, Hd.
Qed.

(** X15: in [src/main.mjs] at most one refresh timer is pending at any
    time: from the load of the script on, over the first connection and
    any number of reconnections, whatever frames arrive and however
    often the refresh timer fires, re-arming [refresh] has cancelled the
    timer armed before, and [refreshTimeout] holds the handle of the one
    that is pending. *)
Theorem X15_main_one_refresh_timer
    (url token : string) (first : list op) (later : list (list op)) (st' : State) :
  main_connections url token first later = Some st' ->
  (length (refresh_pending st') <= 1)%nat /\
  forall tm, In tm (refresh_pending st') -> refreshTimeout st' = Some (Timer.handle tm).
Proof.
  revert st'. apply (main_connections_invariant one_refresh).
  - split; [cbn; lia | intros tm []].
  - apply main_run_one_refresh.
  - apply main_reconnect_one_refresh.
Qed.

Lemma X15_main_one_refresh_timer_witness :
  exists st',
    main_connections sample_url sample_token
      [Receive auth_ok; Tick; Tick] [[Receive auth_ok; Tick]] = Some st' /\
    List.map Timer.handle (refresh_pending st') = [5%nat] /\
    refreshTimeout st' = Some 5%nat.
Proof.
  eexists. split; [vm_compute; reflexivity|].
  match goal with
  | |- List.map _ (refresh_pending ?s) = _ /\ _ =>
      pose proof (X15_main_one_refresh_timer sample_url sample_token
                    [Receive auth_ok; Tick; Tick] [[Receive auth_ok; Tick]] s
                    ltac:(vm_compute; reflexivity)) as [_ Hslot]
  end.
  split; [vm_compute; reflexivity|].
  apply (Hslot {| Timer.handle := 5; Timer.fn := CbRefresh;
                  Timer.delay := 60000; Timer.repeat := false |}).
  vm_compute. left. reflexivity.
Defined.

(** ** Two reconnections scheduled for one failure *)

Lemma find_handle_fresh_app h (l rest : list Timer.t) tm :
  Forall (fun tm => (Timer.handle tm < h)%nat) l ->
  Timer.handle tm = h ->
  List.find (fun tm => Nat.eqb (Timer.handle tm) h) (l ++ tm :: rest) = Some tm.
Proof.
  intros Hl Hh. induction l as [|x l IH]; cbn.
  - rewrite Hh, Nat.eqb_refl. reflexivity.
  - apply Forall_cons in Hl as [Hx Hl].
    destruct (Nat.eqb (Timer.handle x) h) eqn:E; [|apply IH, Hl].
    apply Nat.eqb_eq in E. lia.
Qed.

Lemma filter_handle_fresh h (l : list Timer.t) :
  Forall (fun tm => (Timer.handle tm < h)%nat) l ->
  List.filter (fun tm => negb (Nat.eqb (Timer.handle tm) h)) l = l.
Proof.
  intros Hl. induction l as [|x l IH]; [reflexivity|].
  apply Forall_cons in Hl as [Hx Hl]. cbn.
  destruct (Nat.eqb (Timer.handle x) h) eqn:E.
  - apply Nat.eqb_eq in E. lia.
  - cbn. rewrite IH by exact Hl. reflexivity.
Qed.

Lemma two_timers_spent h (l : list Timer.t) t1 t2 :
  Forall (fun tm => (Timer.handle tm < h)%nat) l ->
  Timer.handle t1 = h -> Timer.handle t2 = S h ->
  List.filter (fun tm => negb (Nat.eqb (Timer.handle tm) (S h)))
    (List.filter (fun tm => negb (Nat.eqb (Timer.handle tm) h))
       (l ++ [t1; t2])) = l.
Proof.
  intros Hl H1 H2. change (l ++ [t1; t2]) with (l ++ [t1] ++ [t2]).
  assert (Hne : Nat.eqb (S h) h = false) by (apply Nat.eqb_neq; lia).
  assert (Hl' : Forall (fun tm => (Timer.handle tm < S h)%nat) l).
  { eapply Forall_impl; [exact Hl|]. cbn. intros; lia. }
  rewrite !List.filter_app. cbn [List.filter].
  rewrite H1, H2, Nat.eqb_refl, Hne. cbn [negb List.filter].
  rewrite H2, Nat.eqb_refl. cbn [negb]. rewrite !app_nil_r.
  rewrite (filter_handle_fresh h) by exact Hl.
  apply filter_handle_fresh, Hl'.
Qed.

(** X16: in [src/main.mjs] an [auth_invalid] frame followed by the close
    of the socket schedules [connect] twice, five seconds ahead each,
    and only the second handle is kept in [connectTimeout].  When the
    first of the two timers runs, [connect] cancels the second: one new
    socket is made, the timers are those that were pending before the
    failure, and the second timer never runs. *)
Theorem X16_main_one_reconnect (data : Data.t) (st : State) :
  Data.type data = "auth_invalid" -> handles_used st ->
  let h := Timers.next (timers st) in
  exists st1 st2,
    Main.onmessage data st = Some st1 /\
    List.map Timer.handle (connect_pending (Main.onclose (socket_becomes CLOSED st1)))
      = List.map Timer.handle (connect_pending st) ++ [h; S h] /\
    connectTimeout (Main.onclose (socket_becomes CLOSED st1)) = Some (S h) /\
    main_fire h (Main.onclose (socket_becomes CLOSED st1)) = Some st2 /\
    Timers.pending (timers st2) = Timers.pending (timers st) /\
    socket st2 = Some (WebSocket.new (wsBaseUrl st +:+ "/api/websocket")) /\
    main_fire (S h) st2 = None.
Proof.
  intros Ht [Hused _]. cbv zeta.
  unfold Main.onmessage. rewrite Ht. cbn.
  eexists. eexists. split; [reflexivity|].
  unfold connect_pending, main_fire, fire_timer, Main.connect, clearTimer. cbn.
  split; [rewrite !List.filter_app, !List.map_app; cbn; rewrite <- app_assoc; reflexivity|].
  split; [reflexivity|].
  rewrite <- (app_assoc (Timers.pending (timers st))). cbn [app].
  rewrite (find_handle_fresh_app (Timers.next (timers st))) by (exact Hused || reflexivity).
  cbn.
  rewrite (two_timers_spent (Timers.next (timers st)))
    by (exact Hused || reflexivity).
  split; [reflexivity|]. split; [reflexivity|]. split; [reflexivity|]. cbn.
  destruct (List.find _ (Timers.pending (timers st))) as [tm|] eqn:Hf; [|reflexivity].
  exfalso. apply find_some in Hf as [Hin Heq]. apply Nat.eqb_eq in Heq.
  rewrite Forall_forall in Hused. apply list_elem_of_In, Hused in Hin. lia.
Qed.

Lemma X16_main_one_reconnect_witness :
  exists st1 st2,
    Main.onmessage (auth_invalid "Invalid access token or password") main_opened
      = Some st1 /\
    main_fire 0 (Main.onclose (socket_becomes CLOSED st1)) = Some st2 /\
    Timers.pending (timers st2) = [] /\
    main_fire 1 st2 = None.
Proof.
  assert (Hu : handles_used main_opened).
  { split; [vm_compute; constructor | intros h Hh; vm_compute in Hh; discriminate Hh]. }
  destruct (X16_main_one_reconnect (auth_invalid "Invalid access token or password")
              main_opened eq_refl Hu)
    as (st1 & st2 & H1 & _ & _ & H2 & H3 & _ & H4).
  exists st1, st2. split; [exact H1|]. split; [exact H2|].
  split; [exact H3 | exact H4].
Defined.

Lemma clear_keeps_used (hi : option nat) (ts : Timers.t) h :
  Forall (fun tm => (Timer.handle tm < h)%nat) (Timers.pending ts) ->
  Forall (fun tm => (Timer.handle tm < h)%nat) (Timers.pending (Timers.clear hi ts)).
Proof.
  intros Hl. destruct hi as [n|]; cbn; [|exact Hl].
  apply Forall_forall. intros tm Hin%list_elem_of_In%filter_In.
  rewrite Forall_forall in Hl. apply Hl, list_elem_of_In, Hin.
Qed.

(** X17: in [index.mjs] an error event followed by the close of the
    socket reports both, and schedules [connect] twice: the error
    handler and the close handler each add one timeout of 1000 ms that
    runs [connect], after the [connect] timers that were pending, and
    nothing cancels either of them.  When the first runs it makes a new
    socket and the second, still 1000 ms, is still pending; when the
    second runs, even after the first socket has opened and sent its
    [auth] frame, it puts another new socket in its place. *)
Theorem X17_index_two_reconnects (message : string) (st : State) :
  handles_used st ->
  let h := Timers.next (timers st) in
  let st2 :=
    Index.onclose
      (socket_becomes CLOSED
         (Index.onerror message (socket_becomes CLOSING st))) in
  Extension.errors (extension st2)
    = Extension.errors (extension st) ++ [VStr message; VStr "Server unreachable"] /\
  connect_pending st2
    = connect_pending (clearTimer (interval st) st)
        ++ [{| Timer.handle := h; Timer.fn := CbConnect;
               Timer.delay := 1000; Timer.repeat := false |};
            {| Timer.handle := S h; Timer.fn := CbConnect;
               Timer.delay := 1000; Timer.repeat := false |}] /\
  exists st3 st4,
    index_fire h None st2 = Some st3 /\
    socket st3 = Some (WebSocket.new (wsBaseUrl st +:+ "/api/websocket")) /\
    In {| Timer.handle := S h; Timer.fn := CbConnect;
          Timer.delay := 1000; Timer.repeat := false |} (connect_pending st3) /\
    sent_frames (Index.open st3) = [AuthFrame (acessToken st)] /\
    index_fire (S h) None (Index.open st3) = Some st4 /\
    socket st4 = Some (WebSocket.new (wsBaseUrl st +:+ "/api/websocket")) /\
    sent_frames st4 = [].
Proof.
  intros [Hused Hint]. cbv zeta.
  set (h := Timers.next (timers st)).
  set (t1 := connect_timer 1000 (timers st)).
  set (t2 := {| Timer.handle := S h; Timer.fn := CbConnect;
                Timer.delay := 1000; Timer.repeat := false |}).
  set (P := Timers.pending (Timers.clear (interval st) (timers st))).
  assert (HP : Forall (fun tm => (Timer.handle tm < h)%nat) P)
    by (apply clear_keeps_used, Hused).
  assert (Hpend :
    Timers.pending
      (timers (Index.onclose
                 (socket_becomes CLOSED
                    (Index.onerror message (socket_becomes CLOSING st)))))
    = P ++ [t1; t2]).
  { unfold Index.onclose, Index.onerror, setTimeout, clearTimer. cbn.
    subst P. destruct (interval st) as [hi|] eqn:Hi; cbn.
    - rewrite List.filter_app. cbn.
      replace (Nat.eqb (Timers.next (timers st)) hi) with false
        by (symmetry; apply Nat.eqb_neq; specialize (Hint hi eq_refl); lia).
      cbn. rewrite <- app_assoc. reflexivity.
    - rewrite <- app_assoc. reflexivity. }
  split; [unfold Index.onclose, Index.onerror, setTimeout; cbn;
          rewrite <- app_assoc; reflexivity|].
  split.
  { unfold connect_pending. rewrite Hpend. unfold clearTimer. cbn.
    rewrite List.filter_app. reflexivity. }
  unfold index_fire, fire_timer. rewrite Hpend.
  rewrite (find_handle_fresh_app h P [t2] t1 HP eq_refl).
  cbn [Timer.repeat t1 connect_timer Timer.fn].
  eexists. eexists. split; [reflexivity|].
  assert (Hleft : List.filter (fun tm => negb (Nat.eqb (Timer.handle tm) h)) (P ++ [t1; t2])
                  = P ++ [t2]).
  { change (P ++ [t1; t2]) with (P ++ [t1] ++ [t2]).
    rewrite !List.filter_app. cbn [List.filter].
    change (Timer.handle t1) with h. change (Timer.handle t2) with (S h).
    rewrite Nat.eqb_refl.
    replace (Nat.eqb (S h) h) with false by (symmetry; apply Nat.eqb_neq; lia).
    rewrite (filter_handle_fresh h) by exact HP. reflexivity. }
  unfold Timers.clear. rewrite Hpend. cbn [Timers.pending]. rewrite Hleft.
  split; [reflexivity|]. split.
  { unfold connect_pending. cbn. rewrite List.filter_app.
    apply in_or_app. right. left. reflexivity. }
  split.
  { unfold Index.open, Index.onopen, send_auth, sent_frames. cbn. reflexivity. }
  unfold Index.open, Index.onopen, send_auth, socket_becomes. cbn.
  assert (HP' : Forall (fun tm => (Timer.handle tm < S h)%nat) P).
  { eapply Forall_impl; [exact HP|]. cbn. intros; lia. }
  rewrite (find_handle_fresh_app (S h) P [] t2 HP' eq_refl). cbn.
  split; [reflexivity|]. split; reflexivity.
Qed.

Lemma X17_index_two_reconnects_witness :
  exists st3 st4,
    connect_pending
      (Index.onclose
         (socket_becomes CLOSED
            (Index.onerror "read ECONNRESET" (socket_becomes CLOSING index_ready))))
      = [{| Timer.handle := 1; Timer.fn := CbConnect;
            Timer.delay := 1000; Timer.repeat := false |};
         {| Timer.handle := 2; Timer.fn := CbConnect;
            Timer.delay := 1000; Timer.repeat := false |}] /\
    index_fire 1 None
      (Index.onclose
         (socket_becomes CLOSED
            (Index.onerror "read ECONNRESET" (socket_becomes CLOSING index_ready))))
      = Some st3 /\
    index_fire 2 None (Index.open st3) = Some st4 /\
    sent_frames st4 = [].
Proof.
  assert (Hu : handles_used index_ready).
  { split; [vm_compute; repeat constructor
           | intros h Hh; vm_compute in Hh; injection Hh as <-; vm_compute; lia]. }
  destruct (X17_index_two_reconnects "read ECONNRESET" index_ready Hu)
    as (_ & Hp & st3 & st4 & H1 & _ & _ & _ & H2 & _ & H3).
  exists st3, st4. split; [rewrite Hp; vm_compute; reflexivity|].
  split; [exact H1|]. split; [exact H2 | exact H3].
Defined.

(** [Index.reconnect] is the close of the socket followed by the run of
    the timeout that the close handler has just armed. *)
Lemma index_reconnect_fires (st : State) :
  handles_used st ->
  index_fire (Timers.next (timers st)) None
    (Index.onclose (socket_becomes CLOSED st))
  = Some (Index.reconnect st).
Proof.
  intros [Hused _].
  set (h := Timers.next (timers st)).
  set (P := Timers.pending (Timers.clear (interval st) (timers st))).
  assert (HP : Forall (fun tm => (Timer.handle tm < h)%nat) P)
    by (apply clear_keeps_used, Hused).
  assert (Hpend :
    Timers.pending (timers (Index.onclose (socket_becomes CLOSED st)))
    = P ++ [connect_timer 1000 (timers st)]).
  { unfold Index.onclose, setTimeout, clearTimer. cbn.
    subst P. destruct (interval st); reflexivity. }
  unfold index_fire, fire_timer. rewrite Hpend.
  rewrite (find_handle_fresh_app h P [] (connect_timer 1000 (timers st)) HP eq_refl).
  reflexivity.
Qed.

(** ** A constructor that raises *)

(** X18: when the [WebSocket] constructor raises in [connect] of
    [index.mjs], the error is not raised further: its message is added
    to the errors of the host, [connect] is scheduled again one second
    ahead and the variable [socket], the view, the caches and the
    counter stay as they are.  When that timer runs and the constructor
    returns, the new socket is in [socket] and the timers are those that
    were pending before. *)
Theorem X18_index_connect_raises (message : string) (st : State) :
  handles_used st ->
  let st1 := Index.connect (Some message) st in
  Extension.errors (extension st1) = Extension.errors (extension st) ++ [VStr message] /\
  Timers.pending (timers st1)
    = Timers.pending (timers st) ++ [connect_timer 1000 (timers st)] /\
  socket st1 = socket st /\ view st1 = view st /\ id st1 = id st /\
  states st1 = states st /\ units st1 = units st /\ types st1 = types st /\
  exists st2,
    index_fire (Timers.next (timers st)) None st1 = Some st2 /\
    socket st2 = Some (WebSocket.new (wsBaseUrl st +:+ "/api/websocket")) /\
    Timers.pending (timers st2) = Timers.pending (timers st).
Proof.
  intros [Hused _]. cbv zeta. unfold Index.connect, setTimeout. cbn.
  conjuncts; try reflexivity.
  unfold index_fire, fire_timer. cbn.
  rewrite (find_handle_fresh_app (Timers.next (timers st)) _ []
             {| Timer.handle := Timers.next (timers st); Timer.fn := CbConnect;
                Timer.delay := 1000; Timer.repeat := false |} Hused eq_refl).
  cbn. eexists. split; [reflexivity|]. split; [reflexivity|].
  rewrite List.filter_app. cbn. rewrite Nat.eqb_refl. cbn.
  rewrite app_nil_r. apply filter_handle_fresh, Hused.
Qed.

Lemma X18_index_connect_raises_witness :
  Extension.errors (extension (Index.start sample_url sample_token (Some "Invalid URL")))
    = [VStr "Invalid URL"] /\
  socket (Index.start sample_url sample_token (Some "Invalid URL")) = None.
Proof.
  assert (Hu : handles_used not_connected).
  { split; [vm_compute; constructor | intros h Hh; vm_compute in Hh; discriminate Hh]. }
  destruct (X18_index_connect_raises "Invalid URL" not_connected Hu)
    as (H1 & _ & H2 & _).
  split; [exact H1 | exact H2].
Defined.

(** ** Commands around a reconnection *)

(** The three actions on an open socket. *)
Lemma actions_sent_all (action : string) (ids : list string) (st : State) :
  socket_open st = true ->
  sent_all "scene" "turn_on" ids st (trigger_scenes ids st) /\
  sent_all "light" ("turn_" +:+ action) ids st (update_lights action ids st) /\
  sent_all "cover" (action +:+ "_cover") ids st (update_shutters action ids st).
Proof.
  intros Ho.
  rewrite trigger_scenes_each, update_lights_each, update_shutters_each.
  conjuncts; apply call_each_sent_all; try exact Ho; intros i; reflexivity.
Qed.

Lemma not_open_error (action : string) (ids : list string) (st : State) :
  socket_open st = false -> ids <> [] ->
  trigger_scenes ids st = ("Error during internal request.", st) /\
  update_lights action ids st = ("Error during internal request.", st) /\
  update_shutters action ids st = ("Error during internal request.", st).
Proof.
  intros Hc Hne.
  rewrite trigger_scenes_each, update_lights_each, update_shutters_each.
  conjuncts;
    match goal with
    | |- call_each ?mk ids st = _ =>
        destruct (call_each_not_open mk ids st Hc) as [Hs Hf];
        specialize (Hf Hne); destruct (call_each mk ids st); cbn in *;
        subst; reflexivity
    end.
Qed.

(** X19: commands are refused, not queued, while a reconnection is on
    its way: after the close of the socket, and again after [connect]
    has made the new socket and until that socket opens, each action on
    a list that is not empty returns "Error during internal request."
    and changes nothing; once the new socket is open, and before any
    answer to its [auth] frame, the action is sent and returns "Done.".
    This holds in both files. *)
Theorem X19_commands_around_reconnect
    (action : string) (ids : list string) (st : State) :
  ids <> [] ->
  (forall st1,
     st1 = Index.onclose (socket_becomes CLOSED st) \/ st1 = Index.reconnect st \/
     st1 = Main.onclose (socket_becomes CLOSED st) \/ st1 = Main.reconnect st ->
     trigger_scenes ids st1 = ("Error during internal request.", st1) /\
     update_lights action ids st1 = ("Error during internal request.", st1) /\
     update_shutters action ids st1 = ("Error during internal request.", st1)) /\
  (forall st1,
     st1 = Index.open (Index.reconnect st) \/ st1 = Main.open (Main.reconnect st) ->
     fst (trigger_scenes ids st1) = "Done." /\
     fst (update_lights action ids st1) = "Done." /\
     fst (update_shutters action ids st1) = "Done." /\
     sent_frames (snd (update_lights action ids st1))
       = AuthFrame (acessToken st)
           :: service_frames (id st1) "light" ("turn_" +:+ action) ids).
Proof.
  intros Hne. split.
  - intros st1 Hst1. apply not_open_error; [|exact Hne].
    destruct Hst1 as [-> | [-> | [-> | ->]]]; unfold socket_open; cbn;
      destruct (socket st); reflexivity.
  - intros st1 Hst1.
    assert (Ho : socket_open st1 = true)
      by (destruct Hst1 as [-> | ->]; reflexivity).
    assert (Hs : sent_frames st1 = [AuthFrame (acessToken st)])
      by (destruct Hst1 as [-> | ->]; reflexivity).
    destruct (actions_sent_all action ids st1 Ho)
      as ((H1 & _) & (H2 & H2s & _) & (H3 & _)).
    conjuncts; try assumption. rewrite H2s, Hs. reflexivity.
Qed.

Lemma X19_commands_around_reconnect_witness :
  exists closed opened,
    closed = Index.reconnect index_with_entities /\
    opened = Index.open (Index.reconnect index_with_entities) /\
    update_lights "on" ["light.kitchen"] closed
      = ("Error during internal request.", closed) /\
    fst (update_lights "on" ["light.kitchen"] opened) = "Done.".
Proof.
  destruct (X19_commands_around_reconnect "on" ["light.kitchen"] index_with_entities
              ltac:(discriminate)) as [H1 H2].
  eexists. eexists. split; [reflexivity|]. split; [reflexivity|].
  destruct (H1 _ (or_intror (or_introl eq_refl))) as (_ & Hc & _).
  destruct (H2 _ (or_introl eq_refl)) as (_ & Ho & _).
  split; [exact Hc | exact Ho].
Defined.

(** ** The errors of the host *)

Lemma update_errors data st st' :
  update data st = Some st' ->
  Extension.errors (extension st') = Extension.errors (extension st).
Proof.
  intros (st1 & Hr & ->)%update_inv. cbn.
  unfold reconcile in Hr.
  repeat match type of Hr with
         | context [type_is ?t ?k] => destruct (type_is t k)
         end;
    destruct (Data.result data); cbn in Hr; try discriminate Hr;
    injection Hr as <-; reflexivity.
Qed.

Lemma main_onmessage_errors data st st' :
  Main.onmessage data st = Some st' ->
  Extension.errors (extension st') = Extension.errors (extension st).
Proof.
  unfold Main.onmessage. intros Hm.
  set (st1 := if String.eqb (Data.type data) "auth_ok" then _ else st) in Hm.
  assert (H1 : extension st1 = extension st).
  { subst st1. destruct (String.eqb (Data.type data) "auth_ok"); [|reflexivity].
    rewrite main_refresh_calls. cbn.
    apply (index_refresh_requests_only
             (clearTimer (refreshTimeout (console_log "Authentication successful" st))
                (console_log "Authentication successful" st))). }
  clearbody st1.
  set (st2 := if String.eqb (Data.type data) "auth_invalid" then _ else st1) in Hm.
  assert (H2 : extension st2 = extension st).
  { subst st2. destruct (String.eqb (Data.type data) "auth_invalid"); exact H1. }
  clearbody st2. rewrite <- H2.
  destruct (String.eqb (Data.type data) "result" && Data.success data).
  - apply (update_errors _ _ _ Hm).
  - injection Hm as <-. reflexivity.
Qed.

Lemma main_run_errors ops : forall st st',
  Main.run ops st = Some st' ->
  Extension.errors (extension st') = Extension.errors (extension st).
Proof.
  induction ops as [|o ops IH]; intros st st'; cbn.
  - intros [= <-]. reflexivity.
  - destruct (Main.step o st) as [st1|] eqn:Hs; [|discriminate]. cbn.
    intros Hr. rewrite (IH st1 st' Hr).
    destruct o; cbn [Main.step act] in Hs;
      try (injection Hs as <-;
           rewrite ?trigger_scenes_each, ?update_lights_each, ?update_shutters_each;
           f_equal; apply call_each_requests_only).
    + apply (main_onmessage_errors _ _ _ Hs).
    + injection Hs as <-. rewrite main_refresh_calls. cbn. f_equal.
      apply (index_refresh_requests_only (clearTimer (refreshTimeout st) st)).
    + injection Hs as <-. unfold Main.onerror.
      destruct (Extension.isEnabled _); reflexivity.
Qed.

(** X20: the errors of the host.  [src/main.mjs] never adds and never
    clears one: over the first connection and any number of
    reconnections, with socket errors and [auth_invalid] frames among
    what happens, the errors of the host are those it had when the
    script was loaded.  In [index.mjs] the opening of a socket clears
    them all, so that after a reconnection has opened, "Server
    unreachable" is gone before the server has answered the [auth]
    frame, and an [auth_invalid] that follows leaves the message of the
    server as the only error. *)
Theorem X20_errors_of_host
    (url token : string) (first : list op) (later : list (list op))
    (data : Data.t) (st : State) :
  (forall st',
     main_connections url token first later = Some st' ->
     Extension.errors (extension st') = []) /\
  Extension.errors (extension (Index.open (Index.reconnect st))) = [] /\
  (Data.type data = "auth_invalid" ->
   exists st',
     Index.onmessage data (Index.open (Index.reconnect st)) = Some st' /\
     Extension.errors (extension st') = [Data.message data]).
Proof.
  conjuncts.
  - apply (main_connections_invariant
             (fun st => Extension.errors (extension st) = [])).
    + reflexivity.
    + intros ops s s' Hr Hs. rewrite (main_run_errors _ _ _ Hr). exact Hs.
    + intros s Hs. exact Hs.
  - reflexivity.
  - intros Ht. unfold Index.onmessage. rewrite Ht. cbn.
    eexists. split; reflexivity.
Qed.

(** ** The pending-request table after a reconnection *)

(** X21: the pending-request table outlives the connection.  After a
    close and a reconnection, before the new socket has carried any
    request, a successful result whose identifier was recorded as
    [get_states] on an earlier connection is still reconciled as a state
    snapshot, in both files: [states] takes the states of its payload. *)
Theorem X21_stale_request_kind (data : Data.t) (st : State) (l : list HaState.t) :
  Data.type data = "result" -> Data.success data = true ->
  types st !! Data.id data = Some "get_states" ->
  Data.result data = RStates l ->
  (request_ids (sent_frames (Index.open (Index.reconnect st))) = [] /\
   exists st',
     Index.onmessage data (Index.open (Index.reconnect st)) = Some st' /\
     states st' = set_all_states l (states st) /\
     units st' = set_all_units l (units st)) /\
  (request_ids (sent_frames (Main.open (Main.reconnect st))) = [] /\
   exists st',
     Main.onmessage data (Main.open (Main.reconnect st)) = Some st' /\
     states st' = set_all_states l (states st) /\
     units st' = set_all_units l (units st)).
Proof.
  intros Ht Hs Hk Hr. split.
  - split; [reflexivity|].
    destruct (snapshot_state data (Index.open (Index.reconnect st)) l Ht Hs Hk Hr)
      as [-> _].
    eexists. split; [reflexivity|]. split; reflexivity.
  - split; [reflexivity|].
    destruct (snapshot_state data (Main.open (Main.reconnect st)) l Ht Hs Hk Hr)
      as [_ ->].
    eexists. split; [reflexivity|]. split; reflexivity.
Qed.

Lemma X21_stale_request_kind_witness :
  exists st',
    Index.onmessage
      (result_of 2 (RStates [ {| HaState.entity_id := "light.kitchen";
                                 HaState.state := VStr "off";
                                 HaState.attributes :=
                                   {| Attributes.unit_of_measurement := VUndefined |} |} ]))
      (Index.open (Index.reconnect index_with_entities)) = Some st' /\
    states st' !! "light.kitchen" = Some (VStr "off").
Proof.
  destruct (X21_stale_request_kind
              (result_of 2 (RStates [ {| HaState.entity_id := "light.kitchen";
                                         HaState.state := VStr "off";
                                         HaState.attributes :=
                                           {| Attributes.unit_of_measurement := VUndefined |} |} ]))
              index_with_entities _ eq_refl eq_refl
              ltac:(vm_compute; reflexivity) eq_refl)
    as [(_ & st' & H1 & H2 & _) _].
  exists st'. split; [exact H1|]. rewrite H2. vm_compute. reflexivity.
Defined.

(** ** The instructions while the connection is down *)

Lemma reconcile_keeps_devices data st st' :
  type_is (types st !! Data.id data) "config/entity_registry/list" = false ->
  reconcile data st = Some st' ->
  View.lights (view st') = View.lights (view st) /\
  View.shutters (view st') = View.shutters (view st) /\
  View.sensors (view st') = View.sensors (view st) /\
  View.scenes (view st') = View.scenes (view st).
Proof.
  unfold reconcile. intros -> H.
  repeat match type of H with
         | context [type_is ?t ?k] => destruct (type_is t k)
         end;
    destruct (Data.result data); cbn in H; try discriminate;
    injection H as <-; repeat split.
Qed.

(** X22: losing the connection does not take the devices out of the
    instructions at once.  The close handlers, [connect] and the opening
    of the new socket leave the published instructions as they are,
    although the view has been emptied by then; the fallback block is
    published when the next successful result is handled on the new
    connection, whatever that result is, unless it is an entity registry
    listing (which fills the view again). *)
Theorem X22_instructions_after_close (data : Data.t) (st st1 : State) :
  st1 = Index.open (Index.reconnect st) \/ st1 = Main.open (Main.reconnect st) ->
  Extension.instructions (extension st1) = Extension.instructions (extension st) /\
  view st1 = View.empty /\
  (type_is (types st !! Data.id data) "config/entity_registry/list" = false ->
   forall st', update data st1 = Some st' ->
     Extension.instructions (extension st')
       = Some [Text baseInstructions; Text defaultInstructions]).
Proof.
  intros Hst1.
  assert (Hi : Extension.instructions (extension st1)
               = Extension.instructions (extension st))
    by (destruct Hst1 as [-> | ->]; reflexivity).
  assert (Hv : view st1 = View.empty)
    by (destruct Hst1 as [-> | ->]; reflexivity).
  assert (Ht : types st1 = types st)
    by (destruct Hst1 as [-> | ->]; reflexivity).
  split; [exact Hi|]. split; [exact Hv|].
  intros Hk st' (st2 & Hr & ->)%update_inv.
  rewrite <- Ht in Hk.
  destruct (reconcile_keeps_devices data st1 st2 Hk Hr) as (H1 & H2 & H3 & H4).
  cbn. rewrite Hv in H1, H2, H3, H4. f_equal.
  apply instructions_of_no_device. repeat split; assumption.
Qed.

Lemma X22_instructions_after_close_witness :
  Extension.instructions (extension (Index.open (Index.reconnect index_with_entities)))
    = Extension.instructions (extension index_with_entities) /\
  view (Index.open (Index.reconnect index_with_entities)) = View.empty.
Proof.
  destruct (X22_instructions_after_close auth_ok index_with_entities
              (Index.open (Index.reconnect index_with_entities))
              (or_introl eq_refl)) as (H1 & H2 & _).
  split; [exact H1 | exact H2].
Defined.
